(** * mcp-builder: the installer of [src/mcp_builder/server.py]

    A shallow embedding of the resolution-and-merge logic of the server:
    the string primitives it calls, the JSON documents it reads and
    writes, the configuration file it rewrites, the two resolvers
    ([install_repo_mcp_server], [install_local_mcp_server]) and the
    installer ([install_to_claude_desktop]).

    Conventions.
    - A Python [str] is a [string]; each [ascii] stands for one code point
      below 256.
    - A Python [dict] is an association list in insertion order: assigning
      to a key that is present replaces its value in place, assigning to
      a new key appends it.
    - [os.path] is [posixpath] wherever the project tree is inspected;
      the platform only selects the configuration path.
    - The configuration file is known by what [json.load] reads from it:
      what [json.dump] wrote is read back as the same document.
    - Code that touches the configuration file runs in a small state and
      exception monad over [world]. *)

From Stdlib Require Import Bool List String Ascii ZArith Lia.
Import ListNotations.

Local Open Scope list_scope.
Local Open Scope string_scope.

#[local] Set Warnings "-register-all".

(** ** Python string primitives *)

Module PyStr.

(** [s.startswith(p)]. *)
Definition startswith (p s : string) : bool := String.prefix p s.

(** [sub in s]: [sub] occurs in [s] as a contiguous run. *)
Fixpoint str_in (sub s : string) : bool :=
  String.prefix sub s ||
  match s with
  | EmptyString => false
  | String _ t => str_in sub t
  end.

(** [s.endswith(suf)]. *)
Fixpoint endswith (suf s : string) : bool :=
  String.eqb suf s ||
  match s with
  | EmptyString => false
  | String _ t => endswith suf t
  end.

(** [s.split(sep)] for a one-character separator: the list of the
    segments between the separators; never empty. *)
Fixpoint split (sep : ascii) (s : string) : list string :=
  match s with
  | EmptyString => [EmptyString]
  | String c t =>
      if Ascii.eqb c sep then EmptyString :: split sep t
      else match split sep t with
           | seg :: rest => String c seg :: rest
           | [] => [String c EmptyString]
           end
  end.

(** [s.split(sep, 1)] on a string that holds the separator: the text
    before the first separator and the text after it.  [None] when the
    separator does not occur. *)
Fixpoint split_once (sep : ascii) (s : string) : option (string * string) :=
  match s with
  | EmptyString => None
  | String c t =>
      if Ascii.eqb c sep then Some (EmptyString, t)
      else match split_once sep t with
           | Some (k, v) => Some (String c k, v)
           | None => None
           end
  end.

(** [xs[1]] and [xs[-1]] on the result of a split. The defaults are never
    reached where the source indexes: see [split_second_guarded] and
    [split_nonempty]. *)
Definition second (xs : list string) : string := nth 1 xs EmptyString.
Definition last_seg (xs : list string) : string := last xs EmptyString.

(** [s.replace(old, new)]: every occurrence of [old], scanning from the
    left without overlap, becomes [new]. [skip] counts the characters of
    an occurrence still to be consumed. *)
Fixpoint replace_from (old new : string) (skip : nat) (s : string) : string :=
  match s with
  | EmptyString => EmptyString
  | String c t =>
      match skip with
      | S k => replace_from old new k t
      | O =>
          if String.prefix old s
          then new ++ replace_from old new (String.length old - 1) t
          else String c (replace_from old new 0 t)
      end
  end.

(** With an empty [old] Python puts [new] before every character and at
    the end. *)
Fixpoint intersperse (new s : string) : string :=
  match s with
  | EmptyString => new
  | String c t => new ++ String c (intersperse new t)
  end.

Definition replace (old new s : string) : string :=
  match old with
  | EmptyString => intersperse new s
  | _ => replace_from old new 0 s
  end.

(** The character class [[a-zA-Z0-9_-]] of the installer's pattern. *)
Definition in_range (lo hi c : ascii) : bool :=
  (N_of_ascii lo <=? N_of_ascii c)%N && (N_of_ascii c <=? N_of_ascii hi)%N.

Definition is_name_char (c : ascii) : bool :=
  in_range "a" "z" c || in_range "A" "Z" c || in_range "0" "9" c
  || Ascii.eqb c "_" || Ascii.eqb c "-".

(** [re.sub(r'[^a-zA-Z0-9_-]', '-', s)]: the pattern matches one
    character at a time, so the substitution is a map. *)
Fixpoint re_sub_invalid (s : string) : string :=
  match s with
  | EmptyString => EmptyString
  | String c t => String (if is_name_char c then c else "-"%char) (re_sub_invalid t)
  end.

(** [posixpath.join(a, b)]. *)
Definition path_join (a b : string) : string :=
  if startswith "/" b then b
  else if (String.eqb a "" || endswith "/" a) then a ++ b
  else a ++ "/" ++ b.

(** [ntpath.join] on components that carry neither a drive nor a root,
    which is how the configuration path is built on Windows. *)
Definition ends_with_nt_sep (a : string) : bool :=
  endswith "\" a || endswith "/" a || endswith ":" a.

Definition nt_join (a b : string) : string :=
  if (String.eqb a "" || ends_with_nt_sep a) then a ++ b
  else a ++ "\" ++ b.

(** [posixpath.basename(p)]: what follows the last separator. *)
Definition basename (p : string) : string := last_seg (split "/" p).

End PyStr.

Import PyStr.

(** ** JSON values and Python dictionaries *)

Inductive json : Type :=
| JNull
| JBool (b : bool)
| JInt (n : Z)
| JFloat (repr : string)
| JStr (s : string)
| JArr (items : list json)
| JObj (members : list (string * json)).

Module PyDict.
Section Dict.
Context {V : Type}.

Definition dict := list (string * V).

(** [d.get(k)] *)
Fixpoint dict_get (k : string) (d : dict) : option V :=
  match d with
  | [] => None
  | (k', v) :: rest => if String.eqb k' k then Some v else dict_get k rest
  end.

(** [k in d] *)
Definition dict_has (k : string) (d : dict) : bool :=
  match dict_get k d with Some _ => true | None => false end.

(** [d[k] = v]: in place when [k] is present, appended otherwise. *)
Fixpoint dict_set (k : string) (v : V) (d : dict) : dict :=
  match d with
  | [] => [(k, v)]
  | (k', v') :: rest =>
      if String.eqb k' k then (k, v) :: rest else (k', v') :: dict_set k v rest
  end.

Definition keys (d : dict) : list string := map fst d.
End Dict.
Arguments dict V : clear implicits.
End PyDict.

Import PyDict.

(** ** The host and the configuration file *)

Inductive system := Windows | Darwin | OtherSystem.

(** What the server reads from its host and never changes: the platform,
    the two directories the configuration path is built from, the [PATH]
    lookup, and the project tree that the local resolver inspects. *)
Record host := {
  platform_system : system;
  home : string;                          (* os.path.expanduser("~") *)
  appdata : option string;                (* os.environ.get("APPDATA") *)
  which : string -> bool;                 (* shutil.which(c) is not None *)
  path_exists : string -> bool;           (* os.path.exists *)
  path_isdir : string -> bool;            (* os.path.isdir *)
  listdir : string -> list string;        (* os.listdir *)
  load_json : string -> option json       (* open + json.load; None when either raises *)
}.

(** The file at the configuration path. [Holds doc] is a file whose text
    [json.load] reads as [doc]; dumping [doc] leaves such a file. *)
Inductive config_file :=
| NoDirectory      (* the directory of the path does not exist *)
| NoFile           (* the directory exists, the file does not *)
| NotJson          (* the file holds text that json.load rejects *)
| Holds (doc : json).

(** The mutable part: the file, and the documents dumped to it so far. *)
Record world := {
  cfg : config_file;
  dumped : list json
}.

Inductive exn :=
| ValueError (msg : string)
| FileNotFoundError
| TypeError
| KeyError
| AttributeError
| LoadFailure.     (* open or json.load raised on a project file *)

Inductive result (A : Type) :=
| Return (a : A)
| Raise (e : exn).
Arguments Return {A} a.
Arguments Raise {A} e.

(** State and exceptions: a computation runs from a world to a result and
    a world. *)
Definition M (A : Type) : Type := world -> result A * world.

Definition ret {A} (a : A) : M A := fun w => (Return a, w).
Definition raise {A} (e : exn) : M A := fun w => (Raise e, w).
Definition bind {A B} (m : M A) (k : A -> M B) : M B :=
  fun w => match m w with
           | (Return a, w') => k a w'
           | (Raise e, w') => (Raise e, w')
           end.
(** [try: m except Exception as e: h e] *)
Definition try_except {A} (m : M A) (h : exn -> M A) : M A :=
  fun w => match m w with
           | (Return a, w') => (Return a, w')
           | (Raise e, w') => h e w'
           end.
Definition lift {A} (r : result A) : M A := fun w => (r, w).

Notation "x <- m ;; k" := (bind m (fun x => k))
  (at level 61, m at next level, right associativity).
Notation "m ;;; k" := (bind m (fun _ => k))
  (at level 61, right associativity).

Definition check_command_exists (h : host) (command : string) : bool :=
  which h command.

Definition config_file_name : string := "claude_desktop_config.json".

Definition get_claude_desktop_config_path (h : host) : option string :=
  match platform_system h with
  | Windows =>
      let base := match appdata h with Some a => a | None => "" end in
      Some (nt_join (nt_join base "Claude") config_file_name)
  | Darwin =>
      Some (path_join (path_join (path_join (path_join (home h) "Library")
                                            "Application Support") "Claude")
                      config_file_name)
  | OtherSystem =>
      Some (path_join (path_join (path_join (home h) ".config") "Claude")
                      config_file_name)
  end.

(** [not config_path] *)
Definition no_path (p : option string) : bool :=
  match p with
  | None => true
  | Some s => String.eqb s ""
  end.

Definition empty_doc : json := JObj [].

(** [read_config()]: the empty document unless the file exists and
    parses. *)
Definition read_config (h : host) : M json :=
  fun w =>
    if no_path (get_claude_desktop_config_path h) then (Return empty_doc, w)
    else match cfg w with
         | NoDirectory | NoFile => (Return empty_doc, w)
         | NotJson => (Return empty_doc, w)
         | Holds doc => (Return doc, w)
         end.

(** [os.makedirs(config_dir, exist_ok=True)] *)
Definition makedirs : M unit :=
  fun w => match cfg w with
           | NoDirectory => (Return tt, {| cfg := NoFile; dumped := dumped w |})
           | _ => (Return tt, w)
           end.

(** [with open(config_path, "w") as f: json.dump(config, f, indent=2)]:
    opening for writing needs the directory. *)
Definition dump_config (config : json) : M unit :=
  fun w => match cfg w with
           | NoDirectory => (Raise FileNotFoundError, w)
           | _ => (Return tt, {| cfg := Holds config; dumped := dumped w ++ [config] |})
           end.

Definition no_config_path : exn :=
  ValueError "Could not find Claude Desktop config file".

(** [write_config(config)] *)
Definition write_config (h : host) (config : json) : M unit :=
  if no_path (get_claude_desktop_config_path h) then raise no_config_path
  else makedirs ;;; dump_config config.

(** [parse_env_vars(env_vars)] *)
Definition parse_env_var (env_obj : dict string) (env_var : string) : dict string :=
  if str_in "=" env_var then
    match split_once "=" env_var with
    | Some (key, value) => dict_set key value env_obj
    | None => env_obj
    end
  else env_obj.

Definition parse_env_vars (env_vars : option (list string)) : option (dict string) :=
  match env_vars with
  | None | Some [] => None
  | Some vars =>
      match fold_left parse_env_var vars [] with
      | [] => None
      | env_obj => Some env_obj
      end
  end.

(** ** The installer *)

(** Lines 123-131 of [install_to_claude_desktop]: the key under which an
    entry is stored. A name that starts with [@] and holds a [/] is
    reduced to its second segment, then every character outside the
    class becomes [-]. *)
Definition normalize_server_name (server_name : string) : string :=
  let server_name :=
    if startswith "@" server_name then
      if str_in "/" server_name then second (split "/" server_name)
      else server_name
    else server_name in
  re_sub_invalid server_name.

(** The value [json.dump] writes for what [parse_env_vars] returned:
    [None] is written as [null]. *)
Definition json_of_env (e : option (dict string)) : json :=
  match e with
  | None => JNull
  | Some d => JObj (map (fun kv => (fst kv, JStr (snd kv))) d)
  end.

(** [env and len(env) > 0] *)
Definition env_given (env : option (list string)) : bool :=
  match env with
  | Some (_ :: _) => true
  | _ => false
  end.

(** Lines 151-162: the entry. *)
Definition server_config (command : string) (args : list string)
    (env : option (list string)) (cwd : option string) : dict json :=
  let sc := [("command", JStr command); ("args", JArr (map JStr args))] in
  let sc := if env_given env
            then dict_set "env" (json_of_env (parse_env_vars env)) sc else sc in
  match cwd with
  | Some c => if String.eqb c "" then sc else dict_set "cwd" (JStr c) sc
  | None => sc
  end.

(** Lines 140-144: the document on disk, or the empty one when the file
    is missing or does not parse. *)
Definition load_or_empty : M json :=
  fun w => match cfg w with
           | NoDirectory | NoFile => (Return empty_doc, w)   (* FileNotFoundError *)
           | NotJson => (Return empty_doc, w)                (* JSONDecodeError *)
           | Holds doc => (Return doc, w)
           end.

(** Lines 147-148. A document that is no object raises [TypeError] here
    or at line 165; either way before anything is written. *)
Definition ensure_mcp_servers (config : json) : result json :=
  match config with
  | JObj d =>
      if dict_has "mcpServers" d then Return config
      else Return (JObj (dict_set "mcpServers" (JObj []) d))
  | _ => Raise TypeError
  end.

(** Line 165: [config["mcpServers"][server_name] = server_config]. The
    inner dictionary is changed in place, so it keeps its position in
    the document. *)
Definition set_server (config : json) (server_name : string) (sc : dict json)
  : result json :=
  match config with
  | JObj d =>
      match dict_get "mcpServers" d with
      | Some (JObj servers) =>
          Return (JObj (dict_set "mcpServers"
                                 (JObj (dict_set server_name (JObj sc) servers)) d))
      | Some _ => Raise TypeError
      | None => Raise KeyError
      end
  | _ => Raise TypeError
  end.

Definition install_to_claude_desktop (h : host) (server_name command : string)
    (args : list string) (env : option (list string)) (cwd : option string)
  : M unit :=
  let server_name := normalize_server_name server_name in
  if no_path (get_claude_desktop_config_path h) then raise no_config_path
  else
    config <- load_or_empty ;;
    config <- lift (ensure_mcp_servers config) ;;
    let sc := server_config command args env cwd in
    config <- lift (set_server config server_name sc) ;;
    dump_config config.

(** ** The remote resolver *)

Definition args_or_empty (args : option (list string)) : list string :=
  match args with
  | Some a => a
  | None => []
  end.

Definition restart_hint : string :=
  " Please tell the user to restart the application.".

Definition installed_via (server_name how : string) : string :=
  "Successfully installed MCP server '" ++ server_name ++ "' via " ++ how ++ "!"
  ++ restart_hint.

Definition neither_installed : string :=
  "Neither Node.js nor Python is installed. Please install one of them.".

Definition cannot_install (name : string) : string :=
  "Could not determine how to install '" ++ name ++ "'".

Definition install_repo_mcp_server (h : host) (name : string)
    (args env : option (list string)) : M string :=
  let args := args_or_empty args in
  let has_node := check_command_exists h "node" in
  let has_npm := check_command_exists h "npm" in
  let has_npx := check_command_exists h "npx" in
  let has_pip := check_command_exists h "pip" in
  let has_python := check_command_exists h "python" in
  if negb has_node && negb has_python then ret neither_installed
  else
    let is_likely_npm_package := startswith "@" name || negb (str_in "." name) in
    if has_npm && has_npx && is_likely_npm_package then
      let server_name :=
        if startswith "@" name && str_in "/" name then second (split "/" name)
        else name in
      install_to_claude_desktop h server_name "npx" (name :: args) env None ;;;
      ret (installed_via server_name "npx")
    else if has_pip && has_python && str_in "." name then
      let server_name := name in
      install_to_claude_desktop h server_name "python" ("-m" :: name :: args) env None ;;;
      ret (installed_via server_name "Python")
    else if has_npm && has_npx then
      let server_name :=
        if str_in "/" name then last_seg (split "/" name) else name in
      install_to_claude_desktop h server_name "npx" (name :: args) env None ;;;
      ret (installed_via server_name "npx")
    else if has_pip && has_python then
      let server_name :=
        if str_in "." name then last_seg (split "." name) else name in
      install_to_claude_desktop h server_name "python" ("-m" :: name :: args) env None ;;;
      ret (installed_via server_name "Python")
    else ret (cannot_install name).

(** ** The local resolver *)

(** What the tool answers: a message, or the message built at line 320
    from the text of the exception it caught. *)
Inductive reply :=
| Say (msg : string)
| NodeError (e : exn).    (* "Error installing Node.js MCP server: " + str(e) *)

Definition path_missing (path : string) : string :=
  "Path '" ++ path ++ "' does not exist.".

Definition installed_local (kind server_name : string) : string :=
  "Successfully installed local " ++ kind ++ " MCP server '" ++ server_name ++ "'!"
  ++ restart_hint.

Definition cannot_install_local (path : string) : string :=
  "Could not determine how to install MCP server from '" ++ path
  ++ "'. Make sure it's a valid Node.js or Python project.".

(** Lines 304-308: the entry point named by [package.json]. *)
Definition node_main_file (package_json : option json) : result json :=
  match package_json with
  | None => Raise LoadFailure
  | Some (JObj d) =>
      match dict_get "main" d with
      | Some v => Return v
      | None => Return (JStr "index.js")
      end
  | Some _ => Raise AttributeError
  end.

(** [os.path.join(path, main_file)]: only a string can be joined. *)
Definition join_entry (path : string) (main_file : json) : result string :=
  match main_file with
  | JStr m => Return (path_join path m)
  | _ => Raise TypeError
  end.

(** Line 342. *)
Definition is_py_source (f : string) : bool :=
  endswith ".py" f && negb (String.eqb f "setup.py").

Definition install_local_mcp_server (h : host) (path : string)
    (args env : option (list string)) : M reply :=
  let args := args_or_empty args in
  if negb (path_exists h path) then ret (Say (path_missing path))
  else
    let has_package_json := path_exists h (path_join path "package.json") in
    let has_pyproject_toml := path_exists h (path_join path "pyproject.toml") in
    let has_setup_py := path_exists h (path_join path "setup.py") in
    let server_name := basename path in
    let has_node := check_command_exists h "node" in
    let has_npm := check_command_exists h "npm" in
    let has_pip := check_command_exists h "pip" in
    let has_python := check_command_exists h "python" in
    if has_package_json && has_node && has_npm then
      try_except
        (main_file <- lift (node_main_file (load_json h (path_join path "package.json"))) ;;
         entry <- lift (join_entry path main_file) ;;
         install_to_claude_desktop h server_name "node" (entry :: args) env None ;;;
         ret (Say (installed_local "Node.js" server_name)))
        (fun e => ret (NodeError e))
    else if (has_pyproject_toml || has_setup_py) && has_python then
      let module_name := replace "-" "_" server_name in
      if path_isdir h (path_join path module_name) then
        install_to_claude_desktop h server_name "python" ("-m" :: module_name :: args)
                                  env (Some path) ;;;
        ret (Say (installed_local "Python" server_name))
      else
        let py_files := filter is_py_source (listdir h path) in
        match py_files with
        | first :: _ =>
            let main_file := replace ".py" "" first in
            install_to_claude_desktop h server_name "python"
                                      (path_join path (main_file ++ ".py") :: args)
                                      env None ;;;
            ret (Say (installed_local "Python" server_name))
        | [] => ret (Say (cannot_install_local path))
        end
    else ret (Say (cannot_install_local path)).

(** ** Running a command *)

(** What [subprocess.run] gives: a process that exited, with its exit
    status and its two captured streams, or an exception, with its text. *)
Inductive spawned :=
| Exited (returncode : Z) (stdout stderr : string)
| SpawnFailed (text : string).

(** The process side of the host: the environment of the server, and
    what running a command in a working directory and an environment
    gives. *)
Record process_host := {
  environ : dict string;                     (* os.environ *)
  subprocess_run : list string -> option string -> dict string -> spawned
}.

(** [d.update(e)]: the members of [e] are assigned in their order. *)
Definition dict_update {V : Type} (d e : dict V) : dict V :=
  fold_left (fun acc kv => dict_set (fst kv) (snd kv) acc) e d.

(** [run_command(command, cwd, env)] *)
Definition run_command (ph : process_host) (command : list string)
    (cwd : option string) (env : option (dict string)) : bool * string :=
  let env_dict := environ ph in
  let env_dict :=
    match env with
    | Some ((_ :: _) as e) => dict_update env_dict e
    | _ => env_dict
    end in
  match subprocess_run ph command cwd env_dict with
  | Exited returncode stdout stderr => (Z.eqb returncode 0, stdout ++ stderr)
  | SpawnFailed text => (false, text)
  end.

Definition is_pypi_package (ph : process_host) (package_name : string) : bool :=
  fst (run_command ph ["pip"; "search"; package_name] None None).

Definition is_npm_package (ph : process_host) (package_name : string) : bool :=
  fst (run_command ph ["npm"; "view"; package_name] None None).

(** A process host on which [npm view] knows one package and [pip] cannot
    be started; a run reports the value of [TOKEN] it was given. *)
Definition sample_processes : process_host := {|
  environ := [("PATH", "/usr/bin"); ("TOKEN", "parent")];
  subprocess_run := fun command _ env_dict =>
    match command with
    | ["npm"; "view"; "left-pad"] => Exited 0 "left-pad@1.3.0" ""
    | "npm" :: _ => Exited 1 "" "npm ERR! 404"
    | "pip" :: _ => SpawnFailed "[Errno 2] No such file or directory: 'pip'"
    | _ => Exited 0 (match dict_get "TOKEN" env_dict with Some v => v | None => "" end) ""
    end
|}.

(** ** Notions used to state the properties *)

(** Every character of [s] satisfies [p]. *)
Fixpoint all_chars (p : ascii -> bool) (s : string) : bool :=
  match s with
  | EmptyString => true
  | String c t => p c && all_chars p t
  end.

(** The replacement the pattern makes at one character. *)
Definition sanitize_char (c : ascii) : ascii :=
  if is_name_char c then c else "-"%char.

(** The document the installer starts from. *)
Definition doc_of (c : config_file) : json :=
  match c with
  | Holds doc => doc
  | _ => empty_doc
  end.

(** Lines 147-165 on a document. *)
Definition upsert_doc (doc : json) (key : string) (sc : dict json) : result json :=
  match ensure_mcp_servers doc with
  | Return config => set_server config key sc
  | Raise e => Raise e
  end.

(** The states from which the installer completes: the directory is
    there, and what the file holds is an object whose [mcpServers], when
    present, is an object. *)
Definition can_upsert (c : config_file) : bool :=
  match c with
  | NoDirectory => false
  | NoFile | NotJson => true
  | Holds (JObj d) =>
      match dict_get "mcpServers" d with
      | None => true
      | Some (JObj _) => true
      | Some _ => false
      end
  | Holds _ => false
  end.

(** The servers of a document, and the entry stored under a key. *)
Definition servers_of (doc : json) : option (dict json) :=
  match doc with
  | JObj d =>
      match dict_get "mcpServers" d with
      | Some (JObj servers) => Some servers
      | _ => None
      end
  | _ => None
  end.

Definition stored_entry (w : world) (key : string) : option json :=
  match cfg w with
  | Holds doc =>
      match servers_of doc with
      | Some servers => dict_get key servers
      | None => None
      end
  | _ => None
  end.

Definition servers_or_empty (doc : json) : dict json :=
  match servers_of doc with
  | Some servers => servers
  | None => []
  end.

(** The document after an upsert that completes: the entry is set among
    the servers, and the servers are set in the document. *)
Definition upserted (doc : json) (key : string) (sc : dict json) : json :=
  match doc with
  | JObj d =>
      JObj (dict_set "mcpServers"
                     (JObj (dict_set key (JObj sc) (servers_or_empty doc))) d)
  | _ => doc
  end.

(** The exception of an upsert that does not complete. *)
Definition install_failure (c : config_file) : exn :=
  match c with
  | NoDirectory => FileNotFoundError
  | _ => TypeError
  end.

(** The world after [doc] was dumped. *)
Definition written (doc : json) (w : world) : world :=
  {| cfg := Holds doc; dumped := (dumped w ++ [doc])%list |}.

(** The status messages that announce an installation. *)
Definition is_success (msg : string) : bool :=
  startswith "Successfully installed" msg.

(** What one installation that completes leaves behind. *)
Definition one_upsert (h : host) (env : option (list string)) (w w' : world) : Prop :=
  exists server_name command argv doc,
    install_to_claude_desktop h server_name command argv env None w = (Return tt, w')
    /\ cfg w' = Holds doc
    /\ dumped w' = (dumped w ++ [doc])%list.

(** The upsert as the specification words it: [read()], ensure the
    mapping, set the entry, [write()]. It is compared with
    [install_to_claude_desktop] below. *)
Definition upsertServer (h : host) (name : string) (descriptor : dict json) : M unit :=
  config <- read_config h ;;
  config <- lift (ensure_mcp_servers config) ;;
  config <- lift (set_server config name descriptor) ;;
  write_config h config.

(** Sample hosts and states. *)
Definition no_tree : host := {|
  platform_system := OtherSystem;
  home := "/home/u";
  appdata := None;
  which := fun _ => false;
  path_exists := fun _ => false;
  path_isdir := fun _ => false;
  listdir := fun _ => [];
  load_json := fun _ => None
|}.

Definition with_tools (tools : list string) (h : host) : host := {|
  platform_system := platform_system h;
  home := home h;
  appdata := appdata h;
  which := fun c => existsb (String.eqb c) tools;
  path_exists := path_exists h;
  path_isdir := path_isdir h;
  listdir := listdir h;
  load_json := load_json h
|}.

Definition python_only : host := with_tools ["pip"; "python"] no_tree.
Definition node_only : host := with_tools ["node"; "npm"; "npx"] no_tree.

(** A project directory [/srv/proj] with a [setup.py] and the given
    other files, on a host with Python. *)
Definition python_project (files : list string) : host := {|
  platform_system := OtherSystem;
  home := "/home/u";
  appdata := None;
  which := fun c => existsb (String.eqb c) ["pip"; "python"];
  path_exists := fun p =>
    existsb (String.eqb p) ("/srv/proj" :: "/srv/proj/" :: map (path_join "/srv/proj") files);
  path_isdir := fun p => existsb (String.eqb p) ["/srv/proj"; "/srv/proj/"];
  listdir := fun p => if existsb (String.eqb p) ["/srv/proj"; "/srv/proj/"] then files else [];
  load_json := fun _ => None
|}.

Definition fresh (c : config_file) : world := {| cfg := c; dumped := [] |}.

(** A document with three servers between two members of its own. *)
Definition sample_servers : dict json :=
  [("alpha", JObj [("command", JStr "node"); ("args", JArr [JStr "a.js"])]);
   ("bar", JObj [("command", JStr "old"); ("args", JArr [])]);
   ("omega", JObj [("command", JStr "python"); ("args", JArr [JStr "-m"; JStr "o"])])].

Definition sample_doc : dict json :=
  [("theme", JStr "dark"); ("mcpServers", JObj sample_servers); ("zoom", JInt 2)].

(** A host on which one tool is declared present or absent. *)
Definition set_tool (tool : string) (present : bool) (h : host) : host := {|
  platform_system := platform_system h;
  home := home h;
  appdata := appdata h;
  which := fun c => if String.eqb c tool then present else which h c;
  path_exists := path_exists h;
  path_isdir := path_isdir h;
  listdir := listdir h;
  load_json := load_json h
|}.

(** A project directory [/srv/app] with a [package.json] that reads as
    [pkg] and a [setup.py] beside it, on a host with Node.js and Python. *)
Definition node_project (pkg : option json) : host := {|
  platform_system := OtherSystem;
  home := "/home/u";
  appdata := None;
  which := fun c => existsb (String.eqb c) ["node"; "npm"; "python"];
  path_exists := fun p =>
    existsb (String.eqb p) ["/srv/app"; "/srv/app/package.json"; "/srv/app/setup.py"];
  path_isdir := fun p => String.eqb p "/srv/app";
  listdir := fun p => if String.eqb p "/srv/app" then ["package.json"; "setup.py"] else [];
  load_json := fun p => if String.eqb p "/srv/app/package.json" then pkg else None
|}.

(** A project directory [/srv/my-proj] with a [pyproject.toml] and the
    package directory [my_proj], on a host with Python and no pip. *)
Definition module_project : host := {|
  platform_system := OtherSystem;
  home := "/home/u";
  appdata := None;
  which := fun c => String.eqb c "python";
  path_exists := fun p =>
    existsb (String.eqb p)
            ["/srv/my-proj"; "/srv/my-proj/pyproject.toml"; "/srv/my-proj/my_proj"];
  path_isdir := fun p => existsb (String.eqb p) ["/srv/my-proj"; "/srv/my-proj/my_proj"];
  listdir := fun p =>
    if String.eqb p "/srv/my-proj" then ["pyproject.toml"; "my_proj"] else [];
  load_json := fun _ => None
|}.

(** A Windows host with [APPDATA] set. *)
Definition windows_host : host := {|
  platform_system := Windows;
  home := "C:\Users\u";
  appdata := Some "C:\Users\u\AppData\Roaming";
  which := fun _ => false;
  path_exists := fun _ => false;
  path_isdir := fun _ => false;
  listdir := fun _ => [];
  load_json := fun _ => None
|}.

(** * Properties *)

(** ** Strings *)

Example split_scoped : split "/" "@foo/bar" = ["@foo"; "bar"].
Proof. reflexivity. Qed.

Example split_once_env : split_once "=" "B=2=x" = Some ("B", "2=x").
Proof. reflexivity. Qed.

Example replace_all_py : replace ".py" "" "demo.pytools.py" = "demotools".
Proof. reflexivity. Qed.

Example replace_dash : replace "-" "_" "my-mcp-server" = "my_mcp_server".
Proof. reflexivity. Qed.

Example replace_empty_old : replace "" "-" "ab" = "-a-b-".
Proof. reflexivity. Qed.

Example basename_trailing : basename "/home/u/proj/" = "".
Proof. reflexivity. Qed.

Example basename_plain : basename "/home/u/proj" = "proj".
Proof. reflexivity. Qed.

Example join_plain : path_join "/srv/app" "main.py" = "/srv/app/main.py".
Proof. reflexivity. Qed.

Example join_trailing : path_join "/srv/app/" "" = "/srv/app/".
Proof. reflexivity. Qed.

Example re_sub_dotted : re_sub_invalid "my.module" = "my-module".
Proof. reflexivity. Qed.

Lemma append_empty_r (s : string) : s ++ "" = s.
Proof. induction s as [|c t IH]; simpl; [reflexivity | now rewrite IH]. Qed.

Lemma append_assoc (a b c : string) : (a ++ b) ++ c = a ++ (b ++ c).
Proof. induction a as [|x t IH]; simpl; [reflexivity | now rewrite IH]. Qed.

Lemma prefix_empty (s : string) : String.prefix "" s = true.
Proof. destruct s; reflexivity. Qed.

Lemma str_in_cons (sub : string) (c : ascii) (t : string) :
  str_in sub (String c t) = String.prefix sub (String c t) || str_in sub t.
Proof. reflexivity. Qed.

(** A one-character needle: membership character by character. *)
Lemma str_in_char_cons (c x : ascii) (t : string) :
  str_in (String c "") (String x t) = Ascii.eqb c x || str_in (String c "") t.
Proof.
  simpl. destruct (ascii_dec c x) as [->|n].
  - now rewrite Ascii.eqb_refl, prefix_empty.
  - apply Ascii.eqb_neq in n. now rewrite n.
Qed.

Lemma str_in_char_empty (c : ascii) : str_in (String c "") "" = false.
Proof. reflexivity. Qed.

Lemma split_nonempty (sep : ascii) (s : string) : split sep s <> [].
Proof.
  destruct s as [|c t]; simpl; [discriminate|].
  destruct (Ascii.eqb c sep); [discriminate|].
  destruct (split sep t); discriminate.
Qed.

(** A string without the separator is its own single segment. *)
Lemma split_without (sep : ascii) (s : string) :
  str_in (String sep "") s = false -> split sep s = [s].
Proof.
  induction s as [|c t IH]; intros H; [reflexivity|].
  rewrite str_in_char_cons in H. apply orb_false_iff in H as [Hc Ht].
  simpl. rewrite Ascii.eqb_sym, Hc, (IH Ht). reflexivity.
Qed.

(** The first segment ends at the first separator. *)
Lemma split_first_segment (sep : ascii) (a b : string) :
  str_in (String sep "") a = false ->
  split sep (a ++ String sep b) = a :: split sep b.
Proof.
  induction a as [|c t IH]; intros H; simpl.
  - now rewrite Ascii.eqb_refl.
  - rewrite str_in_char_cons in H. apply orb_false_iff in H as [Hc Ht].
    rewrite Ascii.eqb_sym, Hc, (IH Ht). reflexivity.
Qed.

(** Where the source takes [split(sep)[1]] it has checked that the
    separator occurs: the list has a second element. *)
Lemma split_second_guarded (sep : ascii) (s : string) :
  str_in (String sep "") s = true -> 2 <= List.length (split sep s).
Proof.
  induction s as [|c t IH]; intros H; [discriminate|].
  rewrite str_in_char_cons in H. simpl.
  destruct (Ascii.eqb c sep) eqn:E.
  - simpl. pose proof (split_nonempty sep t).
    destruct (split sep t); [congruence | simpl; lia].
  - rewrite Ascii.eqb_sym, E in H. simpl in H. specialize (IH H).
    destruct (split sep t); simpl in *; lia.
Qed.

(** [split(sep, 1)] cuts at the first separator and nowhere else. *)
Lemma split_once_spec (sep : ascii) (s k v : string) :
  split_once sep s = Some (k, v) ->
  s = k ++ String sep v /\ str_in (String sep "") k = false.
Proof.
  revert k v. induction s as [|c t IH]; intros k v H; [discriminate|].
  simpl in H. destruct (Ascii.eqb c sep) eqn:E.
  - apply Ascii.eqb_eq in E. subst c. inversion H; subst. split; reflexivity.
  - destruct (split_once sep t) as [[k' v']|] eqn:Ht; [|discriminate].
    inversion H; subst. destruct (IH _ _ eq_refl) as [-> Hk]. split; [reflexivity|].
    rewrite str_in_char_cons, Ascii.eqb_sym, E. exact Hk.
Qed.

Lemma split_once_some (sep : ascii) (s : string) :
  str_in (String sep "") s = true -> exists k v, split_once sep s = Some (k, v).
Proof.
  induction s as [|c t IH]; intros H; [discriminate|].
  rewrite str_in_char_cons in H. simpl.
  destruct (Ascii.eqb c sep) eqn:E; [eauto|].
  rewrite Ascii.eqb_sym, E in H. destruct (IH H) as (k & v & ->). eauto.
Qed.

Lemma endswith_self (s : string) : endswith s s = true.
Proof. destruct s; simpl; [reflexivity|]. now rewrite Ascii.eqb_refl, String.eqb_refl. Qed.

Lemma endswith_nonempty (suf s : string) :
  endswith suf s = true -> suf <> "" -> s <> "".
Proof.
  intros H Hs ->. simpl in H. rewrite orb_false_r in H.
  apply String.eqb_eq in H. contradiction.
Qed.

Lemma endswith_char_cons (sep c : ascii) (t : string) :
  endswith (String sep "") (String c t)
  = (Ascii.eqb sep c && String.eqb "" t) || endswith (String sep "") t.
Proof. reflexivity. Qed.

Lemma split_head_cons (sep c : ascii) (t : string) :
  Ascii.eqb c sep = false ->
  exists seg rest, split sep t = seg :: rest /\
                   split sep (String c t) = String c seg :: rest.
Proof.
  intros E. simpl. rewrite E.
  pose proof (split_nonempty sep t) as Hne.
  destruct (split sep t) as [|seg rest]; [congruence|]. eauto.
Qed.

(** A path written with a trailing separator has an empty base name. *)
Lemma split_trailing (sep : ascii) (s : string) :
  endswith (String sep "") s = true -> last_seg (split sep s) = "".
Proof.
  unfold last_seg. induction s as [|c t IH]; intros H; [discriminate|].
  rewrite endswith_char_cons in H.
  destruct (Ascii.eqb c sep) eqn:E.
  - simpl split. rewrite E.
    destruct t as [|c' t']; [reflexivity|].
    rewrite Ascii.eqb_sym, E in H. simpl in H.
    specialize (IH H).
    pose proof (split_nonempty sep (String c' t')) as Hne.
    destruct (split sep (String c' t')); [congruence | exact IH].
  - rewrite Ascii.eqb_sym, E in H. simpl in H. specialize (IH H).
    destruct (split_head_cons sep c t E) as (seg & rest & Ht & ->).
    rewrite Ht in IH. destruct rest as [|r rest'].
    + simpl in IH. subst seg. exfalso.
      destruct t as [|c' t']; [discriminate|].
      simpl in Ht. destruct (Ascii.eqb c' sep) eqn:E'.
      * inversion Ht as [Hs]. exact (split_nonempty _ _ Hs).
      * destruct (split sep t'); discriminate.
    + exact IH.
Qed.

(** ** The substitution of the pattern *)

Lemma is_name_char_dash : is_name_char "-" = true.
Proof. reflexivity. Qed.

Lemma sanitize_char_valid (c : ascii) : is_name_char (sanitize_char c) = true.
Proof.
  unfold sanitize_char. destruct (is_name_char c) eqn:E; [exact E | reflexivity].
Qed.

Lemma re_sub_invalid_valid (s : string) : all_chars is_name_char (re_sub_invalid s) = true.
Proof.
  induction s as [|c t IH]; [reflexivity|].
  simpl. fold (sanitize_char c). now rewrite sanitize_char_valid, IH.
Qed.

Lemma re_sub_invalid_length (s : string) :
  String.length (re_sub_invalid s) = String.length s.
Proof. induction s as [|c t IH]; simpl; [reflexivity | now rewrite IH]. Qed.

(** Character by character: what is in the class stays, anything else
    becomes a dash. *)
Lemma re_sub_invalid_get (s : string) (i : nat) :
  String.get i (re_sub_invalid s) = option_map sanitize_char (String.get i s).
Proof.
  revert i. induction s as [|c t IH]; intros i; [reflexivity|].
  destruct i as [|i]; simpl; [reflexivity | apply IH].
Qed.

Lemma re_sub_invalid_fixed (s : string) :
  all_chars is_name_char s = true -> re_sub_invalid s = s.
Proof.
  induction s as [|c t IH]; intros H; [reflexivity|].
  simpl in H. apply andb_true_iff in H as [Hc Ht].
  simpl. now rewrite Hc, (IH Ht).
Qed.

(** The three shapes of a name at lines 125-128. *)
Lemma normalize_unscoped (name : string) :
  startswith "@" name && str_in "/" name = false ->
  normalize_server_name name = re_sub_invalid name.
Proof.
  unfold normalize_server_name. intros H.
  destruct (startswith "@" name); [|reflexivity].
  simpl in H. now rewrite H.
Qed.

Lemma normalize_scoped (name : string) :
  startswith "@" name = true -> str_in "/" name = true ->
  normalize_server_name name = re_sub_invalid (second (split "/" name)).
Proof. unfold normalize_server_name. now intros -> ->. Qed.

Lemma normalize_valid (name : string) :
  all_chars is_name_char (normalize_server_name name) = true.
Proof. unfold normalize_server_name. apply re_sub_invalid_valid. Qed.

Lemma str_in_char_app (c : ascii) (a b : string) :
  str_in (String c "") (a ++ b) = str_in (String c "") a || str_in (String c "") b.
Proof.
  induction a as [|x t IH]; [reflexivity|].
  change (String x t ++ b) with (String x (t ++ b)).
  now rewrite !str_in_char_cons, IH, orb_assoc.
Qed.

(** A name of the form [@scope/pkg...]: the key comes from the segment
    between the first and the second separator. *)
Lemma normalize_scope_prefix (scope rest : string) :
  str_in "/" scope = false ->
  normalize_server_name ("@" ++ scope ++ "/" ++ rest)
  = re_sub_invalid (hd "" (split "/" rest)).
Proof.
  intros Hs.
  assert (Hin : str_in "/" ("@" ++ scope ++ "/" ++ rest) = true).
  { change ("@" ++ scope ++ "/" ++ rest) with (String "@" (scope ++ String "/" rest)).
    rewrite str_in_char_cons, str_in_char_app, str_in_char_cons, Ascii.eqb_refl.
    now rewrite orb_true_r. }
  rewrite normalize_scoped; [| |exact Hin].
  2:{ unfold startswith. simpl. destruct (ascii_dec "@" "@"); [|congruence].
      apply prefix_empty. }
  change ("@" ++ scope ++ "/" ++ rest) with (("@" ++ scope) ++ String "/" rest).
  rewrite split_first_segment.
  - unfold second. simpl. now destruct (split "/" rest).
  - change ("@" ++ scope) with (String "@" scope).
    now rewrite str_in_char_cons, Hs.
Qed.

Example normalize_scoped_example : normalize_server_name "@foo/bar" = "bar".
Proof. reflexivity. Qed.

Example normalize_three_segments : normalize_server_name "@a/b/c" = "b".
Proof. reflexivity. Qed.

Example normalize_empty_package : normalize_server_name "@scope/" = "".
Proof. reflexivity. Qed.

(** ** Paths *)

Lemma append_nonempty_r (a b : string) : b <> "" -> a ++ b <> "".
Proof. destruct a; simpl; [auto | discriminate]. Qed.

Lemma path_join_nonempty (a b : string) : b <> "" -> path_join a b <> "".
Proof.
  intros Hb. unfold path_join.
  destruct (startswith "/" b); [exact Hb|].
  destruct (String.eqb a "" || endswith "/" a).
  - now apply append_nonempty_r.
  - apply append_nonempty_r. discriminate.
Qed.

Lemma nt_join_nonempty (a b : string) : b <> "" -> nt_join a b <> "".
Proof.
  intros Hb. unfold nt_join.
  destruct (String.eqb a "" || ends_with_nt_sep a).
  - now apply append_nonempty_r.
  - apply append_nonempty_r. discriminate.
Qed.

(** The path is there on every host: the guards at lines 35, 47 and 136
    never fire. *)
Lemma config_path_found (h : host) : no_path (get_claude_desktop_config_path h) = false.
Proof.
  unfold get_claude_desktop_config_path.
  destruct (platform_system h); simpl; apply String.eqb_neq;
    first [apply nt_join_nonempty | apply path_join_nonempty]; discriminate.
Qed.

Lemma path_join_trailing (path : string) :
  endswith "/" path = true -> path_join path "" = path.
Proof.
  intros H. unfold path_join. simpl. rewrite H, orb_true_r. apply append_empty_r.
Qed.

(** ** Dictionaries *)

Section DictFacts.
Context {V : Type}.
Implicit Types (d : dict V) (k : string) (v : V).

Lemma dict_get_set_same k v d : dict_get k (dict_set k v d) = Some v.
Proof.
  induction d as [|[k' v'] rest IH]; simpl.
  - now rewrite String.eqb_refl.
  - destruct (String.eqb k' k) eqn:E; simpl.
    + now rewrite String.eqb_refl.
    + now rewrite E.
Qed.

Lemma dict_get_set_other k k' v d :
  k' <> k -> dict_get k' (dict_set k v d) = dict_get k' d.
Proof.
  intros Hne. assert (Hkk : String.eqb k k' = false).
  { apply String.eqb_neq. congruence. }
  induction d as [|[k0 v0] rest IH]; simpl.
  - now rewrite Hkk.
  - destruct (String.eqb k0 k) eqn:E; simpl.
    + apply String.eqb_eq in E. subst k0. now rewrite Hkk.
    + now rewrite IH.
Qed.

(** Assigning twice to a key leaves what the second assignment alone
    leaves. *)
Lemma dict_set_twice k v v' d : dict_set k v' (dict_set k v d) = dict_set k v' d.
Proof.
  induction d as [|[k0 v0] rest IH]; simpl.
  - now rewrite String.eqb_refl.
  - destruct (String.eqb k0 k) eqn:E; simpl.
    + now rewrite String.eqb_refl.
    + now rewrite E, IH.
Qed.

Lemma dict_has_set k v d : dict_has k (dict_set k v d) = true.
Proof. unfold dict_has. now rewrite dict_get_set_same. Qed.

(** The order of the keys: an assignment to a present key moves
    nothing, an assignment to a new key goes last. *)
Lemma keys_set_present k v d : dict_has k d = true -> keys (dict_set k v d) = keys d.
Proof.
  unfold dict_has, keys. induction d as [|[k0 v0] rest IH]; simpl; [discriminate|].
  destruct (String.eqb k0 k) eqn:E; simpl; intros H.
  - apply String.eqb_eq in E. now subst.
  - now rewrite IH.
Qed.

Lemma keys_set_absent k v d :
  dict_has k d = false -> keys (dict_set k v d) = (keys d ++ [k])%list.
Proof.
  unfold dict_has, keys. induction d as [|[k0 v0] rest IH]; simpl; [reflexivity|].
  destruct (String.eqb k0 k) eqn:E; simpl; intros H; [discriminate|].
  now rewrite IH.
Qed.

(** Position by position: every member under another key stays where
    it was, with the value it had. *)
Lemma dict_set_nth_other k v d (i : nat) k' v' :
  nth_error d i = Some (k', v') -> k' <> k ->
  nth_error (dict_set k v d) i = Some (k', v').
Proof.
  revert i. induction d as [|[k0 v0] rest IH]; intros i Hi Hne.
  - destruct i; discriminate.
  - simpl. destruct i as [|i]; simpl in Hi.
    + inversion Hi; subst. apply String.eqb_neq in Hne. now rewrite Hne.
    + destruct (String.eqb k0 k); simpl; [exact Hi | now apply IH].
Qed.

Lemma dict_set_length_present k v d :
  dict_has k d = true -> List.length (dict_set k v d) = List.length d.
Proof.
  intros H. rewrite <- (length_map fst (dict_set k v d)), <- (length_map fst d).
  fold (keys (dict_set k v d)). fold (keys d). now rewrite keys_set_present.
Qed.
End DictFacts.

(** ** The installer, step by step *)

Lemma upsert_doc_object (d : dict json) (key : string) (sc : dict json) :
  can_upsert (Holds (JObj d)) = true ->
  upsert_doc (JObj d) key sc = Return (upserted (JObj d) key sc).
Proof.
  unfold can_upsert, upsert_doc, upserted, servers_or_empty, servers_of,
    ensure_mcp_servers, dict_has.
  destruct (dict_get "mcpServers" d) as [v|] eqn:E.
  - destruct v; try discriminate. intros _. simpl. now rewrite E.
  - intros _. simpl. rewrite dict_get_set_same. now rewrite dict_set_twice.
Qed.

Lemma upsert_doc_refused (doc : json) (key : string) (sc : dict json) :
  can_upsert (Holds doc) = false -> upsert_doc doc key sc = Raise TypeError.
Proof.
  unfold can_upsert, upsert_doc, ensure_mcp_servers, dict_has.
  destruct doc as [| | | | | |d]; try reflexivity.
  destruct (dict_get "mcpServers" d) as [v|] eqn:E; [|discriminate].
  destruct v; try discriminate; intros _; simpl; now rewrite E.
Qed.

Lemma bind_lift_run {A B} (r : result A) (k : A -> M B) (w : world) :
  bind (lift r) k w = match r with Return a => k a w | Raise e => (Raise e, w) end.
Proof. unfold bind, lift. now destruct r. Qed.

Lemma load_or_empty_run (w : world) : load_or_empty w = (Return (doc_of (cfg w)), w).
Proof. unfold load_or_empty, doc_of. now destruct (cfg w). Qed.

(** Lines 139-169 in one piece: the document is read, upserted and
    dumped. *)
Lemma install_steps (h : host) (server_name command : string) (args : list string)
    (env : option (list string)) (cwd : option string) (w : world) :
  install_to_claude_desktop h server_name command args env cwd w =
  match upsert_doc (doc_of (cfg w)) (normalize_server_name server_name)
                   (server_config command args env cwd) with
  | Return doc' => dump_config doc' w
  | Raise e => (Raise e, w)
  end.
Proof.
  unfold install_to_claude_desktop. rewrite config_path_found.
  unfold upsert_doc, bind at 1. rewrite load_or_empty_run, bind_lift_run.
  destruct (ensure_mcp_servers (doc_of (cfg w))); [|reflexivity].
  now rewrite bind_lift_run.
Qed.

(** The whole of [install_to_claude_desktop]: it completes exactly from
    the states of [can_upsert], writes the upserted document once, and
    otherwise raises and leaves the world as it was. *)
Lemma install_run (h : host) (server_name command : string) (args : list string)
    (env : option (list string)) (cwd : option string) (w : world) :
  install_to_claude_desktop h server_name command args env cwd w =
  if can_upsert (cfg w)
  then (Return tt,
        written (upserted (doc_of (cfg w)) (normalize_server_name server_name)
                          (server_config command args env cwd)) w)
  else (Raise (install_failure (cfg w)), w).
Proof.
  rewrite install_steps.
  destruct (cfg w) as [| | |doc] eqn:Ec.
  - simpl. unfold dump_config. now rewrite Ec.
  - simpl. unfold dump_config. now rewrite Ec.
  - simpl. unfold dump_config. now rewrite Ec.
  - destruct (can_upsert (Holds doc)) eqn:Ok.
    + destruct doc; try discriminate.
      unfold doc_of. rewrite (upsert_doc_object _ _ _ Ok).
      unfold dump_config. now rewrite Ec.
    + unfold doc_of. now rewrite (upsert_doc_refused _ _ _ Ok).
Qed.

Lemma can_upsert_object (c : config_file) :
  can_upsert c = true ->
  exists d, doc_of c = JObj d /\ can_upsert (Holds (JObj d)) = true.
Proof.
  destruct c as [| | |doc]; simpl; try discriminate.
  - intros _. now exists [].
  - intros _. now exists [].
  - destruct doc; try discriminate. intros H. eauto.
Qed.

Lemma servers_of_upserted (d : dict json) (key : string) (sc : dict json) :
  servers_of (upserted (JObj d) key sc)
  = Some (dict_set key (JObj sc) (servers_or_empty (JObj d))).
Proof. unfold upserted, servers_of at 1. now rewrite dict_get_set_same. Qed.

Lemma can_upsert_upserted (d : dict json) (key : string) (sc : dict json) :
  can_upsert (Holds (upserted (JObj d) key sc)) = true.
Proof. unfold upserted, can_upsert. now rewrite dict_get_set_same. Qed.

(** Upserting the same entry again changes nothing. *)
Lemma upserted_twice (d : dict json) (key : string) (sc : dict json) :
  upserted (upserted (JObj d) key sc) key sc = upserted (JObj d) key sc.
Proof.
  remember (dict_set key (JObj sc) (servers_or_empty (JObj d))) as servers' eqn:Es.
  assert (Hu : upserted (JObj d) key sc = JObj (dict_set "mcpServers" (JObj servers') d))
    by (subst; reflexivity).
  rewrite Hu. unfold upserted.
  assert (Hs : servers_or_empty (JObj (dict_set "mcpServers" (JObj servers') d)) = servers')
    by (unfold servers_or_empty, servers_of; now rewrite dict_get_set_same).
  rewrite Hs. subst servers'. now rewrite !dict_set_twice.
Qed.

(** ** C8: the upsert is idempotent *)

(** C8. Calling [install_to_claude_desktop] twice with the same name,
    command, arguments, environment and working directory gives, the
    second time, the result of the first call and leaves the
    configuration file as the first call left it. *)
Theorem C8_install_twice (h : host) (server_name command : string)
    (args : list string) (env : option (list string)) (cwd : option string)
    (w : world) :
  let once := install_to_claude_desktop h server_name command args env cwd w in
  let twice := install_to_claude_desktop h server_name command args env cwd (snd once) in
  fst twice = fst once /\ cfg (snd twice) = cfg (snd once).
Proof.
  cbv zeta. rewrite (install_run h server_name command args env cwd w).
  destruct (can_upsert (cfg w)) eqn:Ok.
  - destruct (can_upsert_object _ Ok) as (d & Hd & _). rewrite Hd.
    rewrite install_run. cbn [snd fst written cfg doc_of].
    rewrite can_upsert_upserted, upserted_twice. split; reflexivity.
  - cbn [snd fst]. rewrite install_run, Ok. split; reflexivity.
Qed.

Example install_twice_fresh :
  let run := install_to_claude_desktop no_tree "@foo/bar" "npx" ["@foo/bar"] None None in
  cfg (snd (run (snd (run (fresh NoFile))))) = cfg (snd (run (fresh NoFile)))
  /\ cfg (snd (run (fresh NoFile)))
     = Holds (JObj [("mcpServers",
                     JObj [("bar", JObj [("command", JStr "npx");
                                         ("args", JArr [JStr "@foo/bar"])])])]).
Proof. split; reflexivity. Qed.

(** ** C5: an installation touches one entry *)

(** C5. When the file holds a document whose [mcpServers] already has an
    entry under the key of the installation, the installer completes and
    writes a document in which that entry is the new one; every other
    server keeps its value and its position, every other top-level
    member keeps its value and its position, and no key is added or
    moved. *)
Theorem C5_install_overwrites_one_entry (h : host) (server_name command : string)
    (args : list string) (env : option (list string)) (cwd : option string)
    (w : world) (doc servers : dict json) (old : json) :
  cfg w = Holds (JObj doc) ->
  dict_get "mcpServers" doc = Some (JObj servers) ->
  dict_get (normalize_server_name server_name) servers = Some old ->
  exists doc' servers',
    install_to_claude_desktop h server_name command args env cwd w
    = (Return tt, written (JObj doc') w)
    /\ dict_get "mcpServers" doc' = Some (JObj servers')
    /\ dict_get (normalize_server_name server_name) servers'
       = Some (JObj (server_config command args env cwd))
    /\ (forall k, k <> normalize_server_name server_name ->
                  dict_get k servers' = dict_get k servers)
    /\ (forall i k v, nth_error servers i = Some (k, v) ->
                      k <> normalize_server_name server_name ->
                      nth_error servers' i = Some (k, v))
    /\ keys servers' = keys servers
    /\ (forall k, k <> "mcpServers" -> dict_get k doc' = dict_get k doc)
    /\ (forall i k v, nth_error doc i = Some (k, v) -> k <> "mcpServers" ->
                      nth_error doc' i = Some (k, v))
    /\ keys doc' = keys doc.
Proof.
  intros Hc Hs Hold.
  set (key := normalize_server_name server_name) in *.
  set (sc := server_config command args env cwd).
  exists (dict_set "mcpServers" (JObj (dict_set key (JObj sc) servers)) doc),
         (dict_set key (JObj sc) servers).
  split.
  { rewrite install_run, Hc. simpl can_upsert. rewrite Hs.
    unfold doc_of, upserted, servers_or_empty, servers_of. now rewrite Hs. }
  split; [apply dict_get_set_same|].
  split; [apply dict_get_set_same|].
  split; [intros k Hk; now apply dict_get_set_other|].
  split; [intros i k v Hi Hk; now apply dict_set_nth_other|].
  split; [apply keys_set_present; unfold dict_has; now rewrite Hold|].
  split; [intros k Hk; now apply dict_get_set_other|].
  split; [intros i k v Hi Hk; now apply dict_set_nth_other|].
  apply keys_set_present. unfold dict_has. now rewrite Hs.
Qed.

Lemma C5_install_overwrites_one_entry_witness :
  exists doc' servers',
    install_to_claude_desktop no_tree "@foo/bar" "npx" ["@foo/bar"] None None
                              (fresh (Holds (JObj sample_doc)))
    = (Return tt, written (JObj doc') (fresh (Holds (JObj sample_doc))))
    /\ dict_get "mcpServers" doc' = Some (JObj servers')
    /\ dict_get (normalize_server_name "@foo/bar") servers'
       = Some (JObj (server_config "npx" ["@foo/bar"] None None))
    /\ (forall k, k <> normalize_server_name "@foo/bar" ->
                  dict_get k servers' = dict_get k sample_servers)
    /\ (forall i k v, nth_error sample_servers i = Some (k, v) ->
                      k <> normalize_server_name "@foo/bar" ->
                      nth_error servers' i = Some (k, v))
    /\ keys servers' = keys sample_servers
    /\ (forall k, k <> "mcpServers" -> dict_get k doc' = dict_get k sample_doc)
    /\ (forall i k v, nth_error sample_doc i = Some (k, v) -> k <> "mcpServers" ->
                      nth_error doc' i = Some (k, v))
    /\ keys doc' = keys sample_doc.
Proof.
  apply (C5_install_overwrites_one_entry no_tree "@foo/bar" "npx" ["@foo/bar"] None None
           (fresh (Holds (JObj sample_doc))) sample_doc sample_servers
           (JObj [("command", JStr "old"); ("args", JArr [])]));
    reflexivity.
Defined.

(** ** C9: the sanitized identifier *)

(** The class of the pattern, character by character. *)
Lemma is_name_char_spec (c : ascii) :
  is_name_char c
  = existsb (Ascii.eqb c)
      (list_ascii_of_string
         "abcdefghijklmnopqrstuvwxyzABCDEFGHIJKLMNOPQRSTUVWXYZ0123456789_-").
Proof. destruct c as [[] [] [] [] [] [] [] []]; reflexivity. Qed.

(** C9. For a non-empty name: a name [@scope/pkg] (one separator, after
    the scope) has the identifier of [pkg] alone, which is [pkg] with
    the substitution applied; in general a name that starts with [@]
    and holds a separator has the substitution applied to its second
    segment, and any other name has it applied to all of it; the
    substitution keeps the length and replaces, position by position,
    exactly the characters outside [[A-Za-z0-9_-]] by a dash; and the
    identifier has no character outside the class. *)
Theorem C9_sanitized_identifier (name : string) :
  name <> "" ->
  (forall scope pkg,
      name = "@" ++ scope ++ "/" ++ pkg ->
      str_in "/" scope = false -> str_in "/" pkg = false ->
      normalize_server_name name = normalize_server_name pkg
      /\ normalize_server_name pkg = re_sub_invalid pkg)
  /\ (startswith "@" name = true -> str_in "/" name = true ->
      normalize_server_name name = re_sub_invalid (second (split "/" name)))
  /\ (startswith "@" name && str_in "/" name = false ->
      normalize_server_name name = re_sub_invalid name)
  /\ (forall s,
         String.length (re_sub_invalid s) = String.length s
         /\ forall i, String.get i (re_sub_invalid s)
                      = option_map (fun c => if is_name_char c then c else "-"%char)
                                   (String.get i s))
  /\ all_chars is_name_char (normalize_server_name name) = true.
Proof.
  intros _. split; [|split; [|split; [|split]]].
  - intros scope pkg -> Hscope Hpkg.
    assert (Hp : normalize_server_name pkg = re_sub_invalid pkg).
    { apply normalize_unscoped. rewrite Hpkg. apply andb_false_r. }
    split; [|exact Hp].
    rewrite Hp, normalize_scope_prefix by exact Hscope.
    now rewrite (split_without "/" pkg Hpkg).
  - apply normalize_scoped.
  - apply normalize_unscoped.
  - intros s. split; [apply re_sub_invalid_length|].
    intros i. apply re_sub_invalid_get.
  - apply normalize_valid.
Qed.

Lemma C9_sanitized_identifier_witness :
  normalize_server_name "@my.org/pkg name" = normalize_server_name "pkg name"
  /\ normalize_server_name "pkg name" = re_sub_invalid "pkg name"
  /\ String.get 3 (re_sub_invalid "pkg name") = Some "-"%char
  /\ all_chars is_name_char (normalize_server_name "@my.org/pkg name") = true.
Proof.
  destruct (C9_sanitized_identifier "@my.org/pkg name") as (Hs & _ & _ & Hr & Hv);
    [discriminate|].
  destruct (Hs "my.org" "pkg name" eq_refl eq_refl eq_refl) as [H1 H2].
  destruct (Hr "pkg name") as [_ Hg].
  split; [exact H1|]. split; [exact H2|]. split; [exact (Hg 3)|exact Hv].
Defined.

Example sanitized_scoped_with_space : normalize_server_name "@my.org/pkg name" = "pkg-name".
Proof. reflexivity. Qed.

Example sanitized_unscoped : normalize_server_name "my_server.v2" = "my_server-v2".
Proof. reflexivity. Qed.

(** ** The entry *)

Lemma server_config_command (command : string) (args : list string)
    (env : option (list string)) (cwd : option string) :
  dict_get "command" (server_config command args env cwd) = Some (JStr command).
Proof.
  unfold server_config.
  destruct cwd as [c|]; [destruct (String.eqb c "")|];
    destruct (env_given env); reflexivity.
Qed.

Lemma server_config_args (command : string) (args : list string)
    (env : option (list string)) (cwd : option string) :
  dict_get "args" (server_config command args env cwd) = Some (JArr (map JStr args)).
Proof.
  unfold server_config.
  destruct cwd as [c|]; [destruct (String.eqb c "")|];
    destruct (env_given env); reflexivity.
Qed.

Lemma stored_entry_written (d : dict json) (key : string) (sc : dict json) (w : world) :
  stored_entry (written (upserted (JObj d) key sc) w) key = Some (JObj sc).
Proof.
  unfold stored_entry, written. cbn [cfg].
  rewrite servers_of_upserted. apply dict_get_set_same.
Qed.

(** An installation followed by its status message. *)
Lemma install_then_say {A} (h : host) (server_name command : string)
    (args : list string) (env : option (list string)) (cwd : option string)
    (msg : A) (w : world) :
  (install_to_claude_desktop h server_name command args env cwd ;;; ret msg) w =
  if can_upsert (cfg w)
  then (Return msg,
        written (upserted (doc_of (cfg w)) (normalize_server_name server_name)
                          (server_config command args env cwd)) w)
  else (Raise (install_failure (cfg w)), w).
Proof.
  unfold bind. rewrite install_run. now destruct (can_upsert (cfg w)).
Qed.

(** A string that holds a character outside the class is not made of
    class characters. *)
Lemma all_chars_without (c : ascii) (s : string) :
  is_name_char c = false -> str_in (String c "") s = true ->
  all_chars is_name_char s = false.
Proof.
  intros Hc. induction s as [|x t IH]; intros H; [discriminate|].
  rewrite str_in_char_cons in H. simpl.
  destruct (Ascii.eqb c x) eqn:E.
  - apply Ascii.eqb_eq in E. subst x. now rewrite Hc.
  - simpl in H. rewrite (IH H). apply andb_false_r.
Qed.

(** ** C1: a dotted name installed through Python *)

(** C1, as amended. When [pip] and [python] are present, the name holds
    a dot and the npx branch does not apply, the resolver answers that
    the server was installed via Python and, from every state in which
    the installer completes, writes one document in which the entry
    [python -m name args...] is stored under the sanitized form of the
    name. That key is never the raw name: the dot is outside the class
    and becomes a dash. *)
Theorem C1_dotted_name_installed_via_python (h : host) (name : string)
    (args env : option (list string)) (w : world) :
  which h "pip" = true -> which h "python" = true ->
  str_in "." name = true ->
  which h "npm" && which h "npx" && (startswith "@" name || negb (str_in "." name)) = false ->
  can_upsert (cfg w) = true ->
  let sc := server_config "python" ("-m" :: name :: args_or_empty args) env None in
  let w' := written (upserted (doc_of (cfg w)) (normalize_server_name name) sc) w in
  install_repo_mcp_server h name args env w = (Return (installed_via name "Python"), w')
  /\ stored_entry w' (normalize_server_name name) = Some (JObj sc)
  /\ dict_get "command" sc = Some (JStr "python")
  /\ dict_get "args" sc = Some (JArr (map JStr ("-m" :: name :: args_or_empty args)))
  /\ normalize_server_name name <> name.
Proof.
  intros Hpip Hpy Hdot Hnpm Ok. cbv zeta.
  split; [|split; [|split; [|split]]].
  - unfold install_repo_mcp_server, check_command_exists.
    rewrite Hnpm, Hpip, Hpy, Hdot. rewrite andb_false_r. cbn [andb].
    rewrite install_then_say, Ok. reflexivity.
  - destruct (can_upsert_object _ Ok) as (d & -> & _). apply stored_entry_written.
  - apply server_config_command.
  - apply server_config_args.
  - intros Heq. pose proof (normalize_valid name) as Hv. rewrite Heq in Hv.
    rewrite (all_chars_without "." name eq_refl Hdot) in Hv. discriminate.
Qed.

Lemma C1_dotted_name_installed_via_python_witness :
  install_repo_mcp_server python_only "my.module" (Some ["--port"; "80"]) None (fresh NoFile)
  = (Return (installed_via "my.module" "Python"),
     written (JObj [("mcpServers",
                     JObj [("my-module",
                            JObj [("command", JStr "python");
                                  ("args", JArr [JStr "-m"; JStr "my.module";
                                                 JStr "--port"; JStr "80"])])])])
             (fresh NoFile))
  /\ normalize_server_name "my.module" = "my-module".
Proof.
  destruct (C1_dotted_name_installed_via_python python_only "my.module"
              (Some ["--port"; "80"]) None (fresh NoFile)
              eq_refl eq_refl eq_refl eq_refl eq_refl) as (Hrun & _).
  split; [exact Hrun | reflexivity].
Defined.

(** The claim as stated fails: resolving ["my.module"] with only the
    Python tools stores nothing under ["my.module"]; the entry is under
    ["my-module"]. *)
Lemma C1_raw_name_key_counterexample :
  install_repo_mcp_server python_only "my.module" None None (fresh NoFile)
  = (Return (installed_via "my.module" "Python"),
     written (JObj [("mcpServers",
                     JObj [("my-module",
                            JObj [("command", JStr "python");
                                  ("args", JArr [JStr "-m"; JStr "my.module"])])])])
             (fresh NoFile))
  /\ stored_entry
       (snd (install_repo_mcp_server python_only "my.module" None None (fresh NoFile)))
       "my.module" = None.
Proof. split; reflexivity. Qed.

(** ** C6: one upsert on success, none on failure *)

Lemma is_success_installed_via (server_name how : string) :
  is_success (installed_via server_name how) = true.
Proof. reflexivity. Qed.

Lemma is_success_cannot_install (name : string) : is_success (cannot_install name) = false.
Proof. reflexivity. Qed.

Lemma install_then_say_effects (h : host) (server_name command how : string)
    (args : list string) (env : option (list string)) (name : string) (w : world) :
  match (install_to_claude_desktop h server_name command args env None ;;;
         ret (installed_via server_name how)) w with
  | (Return msg, w') =>
      if is_success msg then one_upsert h env w w'
      else (msg = neither_installed \/ msg = cannot_install name) /\ w' = w
  | (Raise _, w') => w' = w
  end.
Proof.
  rewrite install_then_say. destruct (can_upsert (cfg w)) eqn:Ok; [|reflexivity].
  rewrite is_success_installed_via.
  exists server_name, command, args. eexists.
  rewrite install_run, Ok. split; [reflexivity|]. split; reflexivity.
Qed.

(** C6. Every run of the remote resolver that answers with a success
    message made exactly one installation: one document was dumped and
    it is the one on disk. Every run that answers otherwise answers one
    of the two failure messages and leaves the world untouched, as does
    a run that raises. With neither [node] nor [python] the answer is
    the first failure message at once; with a runtime but no complete
    pair of tools it is the second. *)
Theorem C6_remote_install_effects (h : host) (name : string)
    (args env : option (list string)) (w : world) :
  match install_repo_mcp_server h name args env w with
  | (Return msg, w') =>
      if is_success msg then one_upsert h env w w'
      else (msg = neither_installed \/ msg = cannot_install name) /\ w' = w
  | (Raise _, w') => w' = w
  end
  /\ (which h "node" = false -> which h "python" = false ->
      install_repo_mcp_server h name args env w = (Return neither_installed, w))
  /\ (which h "node" || which h "python" = true ->
      which h "npm" && which h "npx" = false ->
      which h "pip" && which h "python" = false ->
      install_repo_mcp_server h name args env w = (Return (cannot_install name), w)).
Proof.
  unfold install_repo_mcp_server, check_command_exists.
  split; [|split].
  - destruct (negb (which h "node") && negb (which h "python")).
    { simpl. split; [now left | reflexivity]. }
    destruct (which h "npm" && which h "npx"
              && (startswith "@" name || negb (str_in "." name)));
      [apply install_then_say_effects|].
    destruct (which h "pip" && which h "python" && str_in "." name);
      [apply install_then_say_effects|].
    destruct (which h "npm" && which h "npx"); [apply install_then_say_effects|].
    destruct (which h "pip" && which h "python"); [apply install_then_say_effects|].
    unfold ret. rewrite is_success_cannot_install. split; [now right | reflexivity].
  - intros -> ->. reflexivity.
  - intros Hrun Hnode Hpy.
    assert (Hn : negb (which h "node") && negb (which h "python") = false).
    { destruct (which h "node"), (which h "python"); simpl in *; congruence. }
    rewrite Hn, Hnode, Hpy. reflexivity.
Qed.

Lemma C6_remote_install_effects_witness :
  install_repo_mcp_server no_tree "some-server" None None (fresh NoFile)
  = (Return neither_installed, fresh NoFile)
  /\ install_repo_mcp_server (with_tools ["node"] no_tree) "some-server" None None
                             (fresh NoFile)
     = (Return (cannot_install "some-server"), fresh NoFile)
  /\ one_upsert node_only None (fresh NoFile)
       (snd (install_repo_mcp_server node_only "some-server" None None (fresh NoFile))).
Proof.
  split; [|split].
  - apply (C6_remote_install_effects no_tree "some-server" None None (fresh NoFile));
      reflexivity.
  - apply (C6_remote_install_effects (with_tools ["node"] no_tree) "some-server" None None
             (fresh NoFile)); reflexivity.
  - exact (proj1 (C6_remote_install_effects node_only "some-server" None None
                    (fresh NoFile))).
Defined.

(** ** C10: a path written with a trailing separator *)

Lemma basename_trailing_separator (path : string) :
  endswith "/" path = true -> basename path = "".
Proof. apply split_trailing. Qed.

Lemma try_except_run {A} (m : M A) (handler : exn -> M A) (w : world) :
  try_except m handler w =
  match m w with
  | (Return a, w') => (Return a, w')
  | (Raise e, w') => handler e w'
  end.
Proof. reflexivity. Qed.

Lemma is_success_installed_local (kind server_name : string) :
  is_success (installed_local kind server_name) = true.
Proof. reflexivity. Qed.

Lemma is_success_cannot_install_local (path : string) :
  is_success (cannot_install_local path) = false.
Proof. reflexivity. Qed.

Lemma is_success_path_missing (path : string) : is_success (path_missing path) = false.
Proof. reflexivity. Qed.

(** Every success message of the local resolver follows one installation
    under the base name of the path. *)
Lemma install_local_success (h : host) (path : string) (args env : option (list string))
    (w w' : world) (msg : string) :
  install_local_mcp_server h path args env w = (Return (Say msg), w') ->
  is_success msg = true ->
  exists command argv cwd,
    can_upsert (cfg w) = true
    /\ w' = written (upserted (doc_of (cfg w)) (normalize_server_name (basename path))
                              (server_config command argv env cwd)) w.
Proof.
  unfold install_local_mcp_server, check_command_exists.
  destruct (negb (path_exists h path)).
  { unfold ret. intros H. inversion H; subst. now rewrite is_success_path_missing. }
  destruct (path_exists h (path_join path "package.json") && which h "node" && which h "npm").
  { rewrite try_except_run, bind_lift_run.
    destruct (node_main_file _) as [main_file|e];
      [|unfold ret; intros H; discriminate H].
    rewrite bind_lift_run.
    destruct (join_entry path main_file) as [entry|e];
      [|unfold ret; intros H; discriminate H].
    rewrite install_then_say.
    destruct (can_upsert (cfg w)) eqn:Ok; [|unfold ret; intros H; discriminate H].
    intros H _. injection H as _ Hw. subst w'.
    exists "node", (entry :: args_or_empty args), None.
    split; reflexivity. }
  destruct ((path_exists h (path_join path "pyproject.toml")
             || path_exists h (path_join path "setup.py")) && which h "python").
  2:{ unfold ret. intros H. inversion H; subst.
      now rewrite is_success_cannot_install_local. }
  destruct (path_isdir h _).
  { rewrite install_then_say.
    destruct (can_upsert (cfg w)) eqn:Ok; [|intros H; discriminate H].
    intros H _. injection H as _ Hw. subst w'.
    exists "python", ("-m" :: replace "-" "_" (basename path) :: args_or_empty args), (Some path).
    split; reflexivity. }
  destruct (filter is_py_source (listdir h path)) as [|first rest].
  { unfold ret. intros H. inversion H; subst.
    now rewrite is_success_cannot_install_local. }
  rewrite install_then_say.
  destruct (can_upsert (cfg w)) eqn:Ok; [|intros H; discriminate H].
  intros H _. injection H as _ Hw. subst w'.
    exists "python", (path_join path (replace ".py" "" first ++ ".py") :: args_or_empty args), None.
    split; reflexivity.
Qed.

(** C10. For a path written with a trailing separator: the base name is
    the empty string and so is its sanitized form; whenever the local
    resolver answers with a success message the entry is stored under the
    empty key; and for an existing directory with a Python marker, a
    Python interpreter and no Node.js branch, from a state in which the
    installer completes, the resolver does answer with a success message
    and stores [python -m ""] with the path as working directory under
    the empty key. *)
Theorem C10_trailing_separator_empty_key (h : host) (path : string)
    (args env : option (list string)) (w : world) :
  endswith "/" path = true ->
  basename path = ""
  /\ normalize_server_name (basename path) = ""
  /\ (forall msg w',
         install_local_mcp_server h path args env w = (Return (Say msg), w') ->
         is_success msg = true ->
         exists entry, stored_entry w' "" = Some entry)
  /\ (path_exists h path = true -> path_isdir h path = true ->
      path_exists h (path_join path "package.json") && which h "node" && which h "npm"
      = false ->
      (path_exists h (path_join path "pyproject.toml")
       || path_exists h (path_join path "setup.py")) && which h "python" = true ->
      can_upsert (cfg w) = true ->
      let sc := server_config "python" ("-m" :: "" :: args_or_empty args) env (Some path) in
      let w' := written (upserted (doc_of (cfg w)) "" sc) w in
      install_local_mcp_server h path args env w
      = (Return (Say (installed_local "Python" "")), w')
      /\ stored_entry w' "" = Some (JObj sc)).
Proof.
  intros Hsep. pose proof (basename_trailing_separator path Hsep) as Hb.
  split; [exact Hb|]. split; [now rewrite Hb|]. split.
  - intros msg w' Hrun Hok.
    destruct (install_local_success _ _ _ _ _ _ _ Hrun Hok)
      as (command & argv & cwd & Ok & ->).
    destruct (can_upsert_object _ Ok) as (d & -> & _).
    rewrite Hb. change (normalize_server_name "") with "".
    eexists. apply stored_entry_written.
  - intros Hex Hdir Hnode Hpy Ok.
    unfold install_local_mcp_server, check_command_exists.
    rewrite Hex, Hnode, Hpy, Hb. cbn [negb].
    change (replace "-" "_" "") with "".
    rewrite (path_join_trailing path Hsep), Hdir, install_then_say, Ok.
    change (normalize_server_name "") with "".
    split; [reflexivity|].
    destruct (can_upsert_object _ Ok) as (d & -> & _). apply stored_entry_written.
Qed.

Lemma C10_trailing_separator_empty_key_witness :
  basename "/srv/proj/" = ""
  /\ install_local_mcp_server (python_project ["setup.py"; "main.py"]) "/srv/proj/"
                              None None (fresh NoFile)
     = (Return (Say (installed_local "Python" "")),
        written (JObj [("mcpServers",
                        JObj [("", JObj [("command", JStr "python");
                                         ("args", JArr [JStr "-m"; JStr ""]);
                                         ("cwd", JStr "/srv/proj/")])])])
                (fresh NoFile)).
Proof.
  destruct (C10_trailing_separator_empty_key (python_project ["setup.py"; "main.py"])
              "/srv/proj/" None None (fresh NoFile) eq_refl) as (Hb & _ & _ & Hrun).
  split; [exact Hb|].
  destruct (Hrun eq_refl eq_refl eq_refl eq_refl eq_refl) as (Hw & _).
  exact Hw.
Defined.

(** ** C2: the environment of an entry *)

Example parse_env_vars_example :
  parse_env_vars (Some ["A=1"; "B=2=x"]) = Some [("A", "1"); ("B", "2=x")].
Proof. reflexivity. Qed.

Example server_config_env_example :
  server_config "npx" ["pkg"] (Some ["A=1"; "B=2=x"]) None
  = [("command", JStr "npx"); ("args", JArr [JStr "pkg"]);
     ("env", JObj [("A", JStr "1"); ("B", JStr "2=x")])].
Proof. reflexivity. Qed.

(** An entry with [=] is cut at the first one and assigned. *)
Lemma parse_env_var_pair (env_obj : dict string) (key value : string) :
  str_in "=" key = false ->
  parse_env_var env_obj (key ++ "=" ++ value) = dict_set key value env_obj.
Proof.
  intros Hk. unfold parse_env_var.
  assert (Hin : str_in "=" (key ++ "=" ++ value) = true).
  { change ("=" ++ value) with (String "=" value).
    now rewrite str_in_char_app, str_in_char_cons, Ascii.eqb_refl, orb_true_r. }
  rewrite Hin.
  destruct (split_once_some "=" _ Hin) as (k & v & Hs). rewrite Hs.
  destruct (split_once_spec _ _ _ _ Hs) as [Heq Hk'].
  assert (Hsame : k = key /\ v = value).
  { clear Hs Hin. revert key Hk Heq. induction k as [|c t IH]; intros key Hk Heq.
    - destruct key as [|c' t'].
      + simpl in Heq. now inversion Heq.
      + simpl in Heq. inversion Heq; subst.
        rewrite str_in_char_cons, Ascii.eqb_refl in Hk. discriminate.
    - destruct key as [|c' t'].
      + simpl in Heq. inversion Heq; subst.
        rewrite str_in_char_cons, Ascii.eqb_refl in Hk'. discriminate.
      + simpl in Heq. inversion Heq; subst.
        rewrite str_in_char_cons in Hk, Hk'.
        apply orb_false_iff in Hk as [_ Hk]. apply orb_false_iff in Hk' as [_ Hk'].
        destruct (IH Hk' t' Hk H1) as [-> ->]. split; reflexivity. }
  destruct Hsame as [-> ->]. reflexivity.
Qed.

(** An entry without [=] is dropped. *)
Lemma parse_env_var_malformed (env_obj : dict string) (env_var : string) :
  str_in "=" env_var = false -> parse_env_var env_obj env_var = env_obj.
Proof. unfold parse_env_var. now intros ->. Qed.

Lemma fold_parse_malformed (vars : list string) (env_obj : dict string) :
  forallb (fun v => negb (str_in "=" v)) vars = true ->
  fold_left parse_env_var vars env_obj = env_obj.
Proof.
  revert env_obj. induction vars as [|v rest IH]; intros env_obj H; [reflexivity|].
  simpl in H. apply andb_true_iff in H as [Hv Hrest]. apply negb_true_iff in Hv.
  simpl. rewrite parse_env_var_malformed by exact Hv. now apply IH.
Qed.

(** No input is parsed as an empty mapping; an empty, absent or wholly
    malformed input is parsed as [None]. *)
Lemma parse_env_vars_never_empty (env_vars : option (list string)) :
  parse_env_vars env_vars <> Some [].
Proof.
  unfold parse_env_vars. destruct env_vars as [[|v rest]|]; try discriminate.
  destruct (fold_left parse_env_var (v :: rest) []); discriminate.
Qed.

Lemma parse_env_vars_all_malformed (vars : list string) :
  forallb (fun v => negb (str_in "=" v)) vars = true ->
  parse_env_vars (Some vars) = None.
Proof.
  intros H. unfold parse_env_vars. destruct vars as [|v rest]; [reflexivity|].
  now rewrite fold_parse_malformed.
Qed.

(** With an empty or absent list the entry has no [env] member. *)
Lemma server_config_without_env (command : string) (args : list string)
    (env : option (list string)) (cwd : option string) :
  env_given env = false ->
  dict_get "env" (server_config command args env cwd) = None.
Proof.
  intros H. unfold server_config. rewrite H.
  destruct cwd as [c|]; [destruct (String.eqb c "")|]; reflexivity.
Qed.

(** With a list that is not empty the entry has an [env] member, whatever
    the list parses to. *)
Lemma server_config_with_env (command : string) (args : list string)
    (env : option (list string)) (cwd : option string) :
  env_given env = true ->
  dict_get "env" (server_config command args env cwd)
  = Some (json_of_env (parse_env_vars env)).
Proof.
  intros H. unfold server_config. rewrite H.
  destruct cwd as [c|]; [destruct (String.eqb c "")|]; reflexivity.
Qed.

(** C2, where the code departs from it. A list whose entries are all
    malformed parses to [None], and the entry is stored with an [env]
    member whose value is [null]: for [env = ["FOO"]] the document
    written holds ["env": null]. *)
Theorem C2_malformed_env_stored_as_null :
  parse_env_vars (Some ["FOO"]) = None
  /\ server_config "npx" ["pkg"] (Some ["FOO"]) None
     = [("command", JStr "npx"); ("args", JArr [JStr "pkg"]); ("env", JNull)]
  /\ install_to_claude_desktop no_tree "pkg" "npx" ["pkg"] (Some ["FOO"]) None (fresh NoFile)
     = (Return tt,
        written (JObj [("mcpServers",
                        JObj [("pkg", JObj [("command", JStr "npx");
                                            ("args", JArr [JStr "pkg"]);
                                            ("env", JNull)])])])
                (fresh NoFile)).
Proof. split; [|split]; reflexivity. Qed.

(** ** C3 and C7: the directory of the configuration file *)

Lemma read_config_run (h : host) (w : world) :
  read_config h w = (Return (doc_of (cfg w)), w).
Proof.
  unfold read_config. rewrite config_path_found. unfold doc_of. now destruct (cfg w).
Qed.

(** The read at lines 140-144 is [read_config]. *)
Lemma load_or_empty_is_read_config (h : host) (w : world) :
  load_or_empty w = read_config h w.
Proof. now rewrite load_or_empty_run, read_config_run. Qed.

(** [write_config] dumps from every state: it makes the directory. *)
Lemma write_config_run (h : host) (config : json) (w : world) :
  write_config h config w = (Return tt, written config w).
Proof.
  unfold write_config. rewrite config_path_found.
  unfold bind, makedirs, dump_config, written. destruct (cfg w) eqn:E; simpl.
  - reflexivity.
  - now rewrite E.
  - now rewrite E.
  - now rewrite E.
Qed.

Lemma upsertServer_run (h : host) (name : string) (descriptor : dict json) (w : world) :
  upsertServer h name descriptor w =
  match upsert_doc (doc_of (cfg w)) name descriptor with
  | Return doc' => (Return tt, written doc' w)
  | Raise e => (Raise e, w)
  end.
Proof.
  unfold upsertServer, upsert_doc, bind at 1. rewrite read_config_run, bind_lift_run.
  destruct (ensure_mcp_servers (doc_of (cfg w))); [|reflexivity].
  rewrite bind_lift_run. destruct (set_server _ _ _); [|reflexivity].
  apply write_config_run.
Qed.

(** X1. Where the directory of the configuration file exists, the
    installer is the upsert of the specification: [read_config], ensure
    the mapping, set the entry under the sanitized name, [write_config]. *)
Lemma install_is_upsertServer (h : host) (server_name command : string)
    (args : list string) (env : option (list string)) (cwd : option string)
    (w : world) :
  cfg w <> NoDirectory ->
  install_to_claude_desktop h server_name command args env cwd w
  = upsertServer h (normalize_server_name server_name)
                 (server_config command args env cwd) w.
Proof.
  intros Hd. rewrite install_steps, upsertServer_run.
  destruct (upsert_doc _ _ _); [|reflexivity].
  unfold dump_config, written. destruct (cfg w); [contradiction|reflexivity..].
Qed.

(** C3, where the code departs from it. When the directory of the
    configuration file does not exist, [write_config] and the upsert of
    the specification create it and write the document;
    [install_to_claude_desktop] opens the file for writing without
    creating the directory, raises [FileNotFoundError] and writes nothing. *)
Theorem C3_install_does_not_create_directory (h : host) (server_name command : string)
    (args : list string) (env : option (list string)) (cwd : option string)
    (log : list json) :
  let w := {| cfg := NoDirectory; dumped := log |} in
  let sc := server_config command args env cwd in
  let key := normalize_server_name server_name in
  let doc := JObj [("mcpServers", JObj [(key, JObj sc)])] in
  write_config h doc w = (Return tt, written doc w)
  /\ upsertServer h key sc w = (Return tt, written doc w)
  /\ install_to_claude_desktop h server_name command args env cwd w
     = (Raise FileNotFoundError, w).
Proof.
  cbv zeta. split; [apply write_config_run|]. split.
  - now rewrite upsertServer_run.
  - now rewrite install_run.
Qed.


(** C7, where the code departs from it. In the state in which the file
    is missing because its directory is, the read returns the empty
    document, but the installation that follows raises
    [FileNotFoundError] and leaves no document. *)
Theorem C7_missing_directory_install_fails (h : host) (server_name command : string)
    (args : list string) (env : option (list string)) (cwd : option string)
    (log : list json) :
  let w := {| cfg := NoDirectory; dumped := log |} in
  read_config h w = (Return empty_doc, w)
  /\ install_to_claude_desktop h server_name command args env cwd (snd (read_config h w))
     = (Raise FileNotFoundError, w).
Proof.
  cbv zeta. rewrite read_config_run. split; [reflexivity|].
  now rewrite install_run.
Qed.

(** ** C4: the first source file of a Python project *)

Lemma prefix_cons (c1 c2 : ascii) (s1 s2 : string) :
  String.prefix (String c1 s1) (String c2 s2)
  = if ascii_dec c1 c2 then String.prefix s1 s2 else false.
Proof. reflexivity. Qed.

Lemma prefix_py_extended (c : ascii) (t : string) :
  String.prefix ".py" (String c t) = false ->
  String.prefix ".py" (String c (t ++ ".py")) = false.
Proof.
  rewrite !prefix_cons. destruct (ascii_dec "." c) as [_|_]; [|reflexivity].
  destruct t as [|c1 t1].
  { intros _. reflexivity. }
  change (String c1 t1 ++ ".py") with (String c1 (t1 ++ ".py")).
  rewrite !prefix_cons. destruct (ascii_dec "p" c1) as [_|_]; [|reflexivity].
  destruct t1 as [|c2 t2].
  { intros _. reflexivity. }
  change (String c2 t2 ++ ".py") with (String c2 (t2 ++ ".py")).
  rewrite !prefix_cons. destruct (ascii_dec "y" c2) as [_|_]; [|reflexivity].
  now rewrite prefix_empty.
Qed.

(** When the extension occurs only at the end of the name, removing
    every occurrence removes the suffix. *)
Lemma replace_py_suffix (stem : string) :
  str_in ".py" stem = false -> replace ".py" "" (stem ++ ".py") = stem.
Proof.
  unfold replace. induction stem as [|c t IH]; intros H; [reflexivity|].
  rewrite str_in_cons in H. apply orb_false_iff in H as [Hp Ht].
  change (String c t ++ ".py") with (String c (t ++ ".py")).
  cbn [replace_from]. rewrite (prefix_py_extended c t Hp).
  now rewrite (IH Ht).
Qed.

Lemma endswith_suffix (suf s : string) :
  endswith suf s = true -> exists stem, s = stem ++ suf.
Proof.
  induction s as [|c t IH]; simpl; intros H.
  - rewrite orb_false_r in H. apply String.eqb_eq in H. subst. now exists "".
  - apply orb_true_iff in H as [H|H].
    + apply String.eqb_eq in H. subst. now exists "".
    + destruct (IH H) as (stem & ->). now exists (String c stem).
Qed.

(** X3. The branch of lines 340-355 on a first source file whose only
    [.py] is its extension: the interpreter is run on the path of that
    file, followed by the extra arguments. *)
Lemma local_python_entry_file (h : host) (path : string)
    (args env : option (list string)) (w : world) (stem : string) (rest : list string) :
  path_exists h path = true ->
  path_exists h (path_join path "package.json") && which h "node" && which h "npm" = false ->
  (path_exists h (path_join path "pyproject.toml")
   || path_exists h (path_join path "setup.py")) && which h "python" = true ->
  path_isdir h (path_join path (replace "-" "_" (basename path))) = false ->
  filter is_py_source (listdir h path) = (stem ++ ".py") :: rest ->
  str_in ".py" stem = false ->
  can_upsert (cfg w) = true ->
  install_local_mcp_server h path args env w
  = (Return (Say (installed_local "Python" (basename path))),
     written (upserted (doc_of (cfg w)) (normalize_server_name (basename path))
                       (server_config "python"
                                      (path_join path (stem ++ ".py") :: args_or_empty args)
                                      env None)) w).
Proof.
  intros Hex Hnode Hpy Hdir Hfiles Hstem Ok.
  unfold install_local_mcp_server, check_command_exists.
  rewrite Hex, Hnode, Hpy, Hdir, Hfiles. cbn [negb].
  rewrite (replace_py_suffix stem Hstem), install_then_say, Ok. reflexivity.
Qed.

(** C4, where the code departs from it. In a project whose listing is
    [setup.py], [demo.pytools.py], the first source file is
    [demo.pytools.py]; the entry written runs the interpreter on
    [/srv/proj/demotools.py], not on the path of that file: every [.py]
    inside the name was removed before the extension was put back. *)
Theorem C4_inner_extension_removed :
  filter is_py_source (listdir (python_project ["setup.py"; "demo.pytools.py"]) "/srv/proj")
  = ["demo.pytools.py"]
  /\ path_join "/srv/proj" "demo.pytools.py" = "/srv/proj/demo.pytools.py"
  /\ install_local_mcp_server (python_project ["setup.py"; "demo.pytools.py"]) "/srv/proj"
                              None None (fresh NoFile)
     = (Return (Say (installed_local "Python" "proj")),
        written (JObj [("mcpServers",
                        JObj [("proj", JObj [("command", JStr "python");
                                             ("args", JArr [JStr "/srv/proj/demotools.py"])])])])
                (fresh NoFile)).
Proof. split; [|split]; reflexivity. Qed.

Example local_python_plain_file :
  install_local_mcp_server (python_project ["setup.py"; "server.py"; "util.py"]) "/srv/proj"
                           (Some ["--debug"]) None (fresh NoFile)
  = (Return (Say (installed_local "Python" "proj")),
     written (JObj [("mcpServers",
                     JObj [("proj", JObj [("command", JStr "python");
                                          ("args", JArr [JStr "/srv/proj/server.py";
                                                         JStr "--debug"])])])])
             (fresh NoFile)).
Proof. reflexivity. Qed.

(** ** Further properties of the installer and the resolvers *)

Lemma install_is_upsertServer_witness :
  install_to_claude_desktop no_tree "@foo/bar" "npx" ["@foo/bar"] None None (fresh NotJson)
  = upsertServer no_tree (normalize_server_name "@foo/bar")
                 (server_config "npx" ["@foo/bar"] None None) (fresh NotJson).
Proof.
  apply (install_is_upsertServer no_tree "@foo/bar" "npx" ["@foo/bar"] None None
           (fresh NotJson)).
  discriminate.
Defined.


Lemma local_python_entry_file_witness :
  install_local_mcp_server (python_project ["setup.py"; "server.py"; "util.py"]) "/srv/proj"
                           None None (fresh NoFile)
  = (Return (Say (installed_local "Python" (basename "/srv/proj"))),
     written (upserted (doc_of (cfg (fresh NoFile)))
                       (normalize_server_name (basename "/srv/proj"))
                       (server_config "python"
                                      (path_join "/srv/proj" ("server" ++ ".py")
                                       :: args_or_empty None)
                                      None None))
             (fresh NoFile)).
Proof.
  apply (local_python_entry_file (python_project ["setup.py"; "server.py"; "util.py"])
           "/srv/proj" None None (fresh NoFile) "server" ["util.py"]);
    reflexivity.
Defined.

(** X4. The environment of an entry, where the code does what the
    specification says: an absent or empty list parses to [None] and
    gives an entry without [env]; no list parses to an empty mapping; an
    entry of the list is cut at its first [=] and assigned, a later
    assignment to the same key replacing the value in place; an entry
    without [=] changes nothing; and [["A=1"; "B=2=x"]] parses to
    [{A: "1", B: "2=x"}]. *)
Theorem env_pairs_contract :
  parse_env_vars None = None
  /\ parse_env_vars (Some []) = None
  /\ (forall env_vars, parse_env_vars env_vars <> Some [])
  /\ (forall env_obj key value,
         str_in "=" key = false ->
         parse_env_var env_obj (key ++ "=" ++ value) = dict_set key value env_obj)
  /\ (forall env_obj env_var,
         str_in "=" env_var = false -> parse_env_var env_obj env_var = env_obj)
  /\ (forall command args env cwd,
         env_given env = false ->
         dict_get "env" (server_config command args env cwd) = None)
  /\ parse_env_vars (Some ["A=1"; "B=2=x"]) = Some [("A", "1"); ("B", "2=x")].
Proof.
  split; [reflexivity|]. split; [reflexivity|].
  split; [exact parse_env_vars_never_empty|].
  split; [exact parse_env_var_pair|].
  split; [exact parse_env_var_malformed|].
  split; [exact server_config_without_env|reflexivity].
Qed.

Lemma env_pairs_contract_witness :
  parse_env_var [("B", "old")] ("B" ++ "=" ++ "2=x") = [("B", "2=x")]
  /\ parse_env_var [("B", "old")] "malformed" = [("B", "old")]
  /\ dict_get "env" (server_config "npx" ["pkg"] (Some []) None) = None.
Proof.
  destruct env_pairs_contract as (_ & _ & _ & Hpair & Hbad & Hnone & _).
  split; [exact (Hpair [("B", "old")] "B" "2=x" eq_refl)|].
  split; [exact (Hbad [("B", "old")] "malformed" eq_refl)|].
  exact (Hnone "npx" ["pkg"] (Some []) None eq_refl).
Defined.

(** The segments of a split hold no separator. *)
Lemma split_segments_free (sep : ascii) (s : string) :
  Forall (fun seg => str_in (String sep "") seg = false) (split sep s).
Proof.
  induction s as [|c t IH]; simpl.
  - constructor; [reflexivity | constructor].
  - destruct (Ascii.eqb c sep) eqn:E.
    + constructor; [reflexivity | exact IH].
    + destruct (split sep t) as [|seg rest]; inversion IH; subst.
      * constructor; [|constructor].
        now rewrite str_in_char_cons, Ascii.eqb_sym, E.
      * constructor; [|assumption].
        rewrite str_in_char_cons, Ascii.eqb_sym, E. assumption.
Qed.

Lemma second_segment_free (sep : ascii) (s : string) :
  str_in (String sep "") (second (split sep s)) = false.
Proof.
  unfold second. pose proof (split_segments_free sep s) as H.
  destruct (split sep s) as [|a [|b rest]]; try reflexivity.
  inversion H as [|? ? _ H2]; subst. now inversion H2.
Qed.

(** Reducing a scoped name twice, in the resolver and in the installer,
    gives the key of the name itself. *)
Lemma normalize_reduced (name : string) :
  normalize_server_name
    (if startswith "@" name && str_in "/" name then second (split "/" name) else name)
  = normalize_server_name name.
Proof.
  destruct (startswith "@" name) eqn:Ha; [|reflexivity].
  destruct (str_in "/" name) eqn:Hs; [|reflexivity].
  cbn [andb]. rewrite (normalize_scoped name Ha Hs).
  apply normalize_unscoped. rewrite second_segment_free. apply andb_false_r.
Qed.

(** X5. The npx branch of the remote resolver. With a runtime, [npm] and
    [npx] present and a name that starts with [@] or holds no dot, from a
    state in which the installer completes, the resolver stores the
    entry [npx name args...] under the sanitized name and answers with
    the success message that names the unscoped segment. *)
Theorem remote_npx_branch (h : host) (name : string) (args env : option (list string))
    (w : world) :
  which h "node" || which h "python" = true ->
  which h "npm" = true -> which h "npx" = true ->
  startswith "@" name || negb (str_in "." name) = true ->
  can_upsert (cfg w) = true ->
  let server_name :=
    if startswith "@" name && str_in "/" name then second (split "/" name) else name in
  let sc := server_config "npx" (name :: args_or_empty args) env None in
  let w' := written (upserted (doc_of (cfg w)) (normalize_server_name name) sc) w in
  install_repo_mcp_server h name args env w = (Return (installed_via server_name "npx"), w')
  /\ stored_entry w' (normalize_server_name name) = Some (JObj sc)
  /\ dict_get "command" sc = Some (JStr "npx")
  /\ dict_get "args" sc = Some (JArr (map JStr (name :: args_or_empty args))).
Proof.
  intros Hrun Hnpm Hnpx Hlikely Ok. cbv zeta.
  split; [|split; [|split]].
  - unfold install_repo_mcp_server, check_command_exists.
    assert (Hn : negb (which h "node") && negb (which h "python") = false).
    { destruct (which h "node"), (which h "python"); simpl in *; congruence. }
    rewrite Hn, Hnpm, Hnpx, Hlikely. cbn [andb].
    rewrite install_then_say, Ok, normalize_reduced. reflexivity.
  - destruct (can_upsert_object _ Ok) as (d & -> & _). apply stored_entry_written.
  - apply server_config_command.
  - apply server_config_args.
Qed.

Lemma remote_npx_branch_witness :
  install_repo_mcp_server node_only "@foo/bar" (Some ["--verbose"]) None (fresh NoFile)
  = (Return (installed_via "bar" "npx"),
     written (JObj [("mcpServers",
                     JObj [("bar", JObj [("command", JStr "npx");
                                         ("args", JArr [JStr "@foo/bar";
                                                        JStr "--verbose"])])])])
             (fresh NoFile)).
Proof.
  exact (proj1 (remote_npx_branch node_only "@foo/bar" (Some ["--verbose"]) None
                  (fresh NoFile) eq_refl eq_refl eq_refl eq_refl eq_refl)).
Defined.

(** X6. The failure paths of the local resolver: a path that does not
    exist, and a directory for which neither the Node.js branch nor the
    Python branch applies, are answered with a message and the world is
    left as it was. *)
Theorem local_failure_paths (h : host) (path : string) (args env : option (list string))
    (w : world) :
  (path_exists h path = false ->
   install_local_mcp_server h path args env w = (Return (Say (path_missing path)), w))
  /\ (path_exists h path = true ->
      path_exists h (path_join path "package.json") && which h "node" && which h "npm"
      = false ->
      (path_exists h (path_join path "pyproject.toml")
       || path_exists h (path_join path "setup.py")) && which h "python" = false ->
      install_local_mcp_server h path args env w
      = (Return (Say (cannot_install_local path)), w)).
Proof.
  unfold install_local_mcp_server, check_command_exists. split.
  - now intros ->.
  - now intros -> -> ->.
Qed.

Lemma local_failure_paths_witness :
  install_local_mcp_server no_tree "/nowhere" None None (fresh NoFile)
  = (Return (Say (path_missing "/nowhere")), fresh NoFile)
  /\ install_local_mcp_server (with_tools [] (python_project ["setup.py"; "main.py"]))
                              "/srv/proj" None None (fresh NoFile)
     = (Return (Say (cannot_install_local "/srv/proj")), fresh NoFile).
Proof.
  split.
  - exact (proj1 (local_failure_paths no_tree "/nowhere" None None (fresh NoFile)) eq_refl).
  - exact (proj2 (local_failure_paths (with_tools [] (python_project ["setup.py"; "main.py"]))
                    "/srv/proj" None None (fresh NoFile)) eq_refl eq_refl eq_refl).
Defined.



(** ** The installer: new keys, overwriting, and what an installation keeps *)

Lemma dict_set_absent {V : Type} (k : string) (v : V) (d : dict V) :
  dict_has k d = false -> dict_set k v d = (d ++ [(k, v)])%list.
Proof.
  unfold dict_has. induction d as [|[k0 v0] rest IH]; simpl; [reflexivity|].
  destruct (String.eqb k0 k); [discriminate|]. intros H. now rewrite IH.
Qed.

Lemma servers_or_empty_upserted (d : dict json) (key : string) (sc : dict json) :
  servers_or_empty (upserted (JObj d) key sc)
  = dict_set key (JObj sc) (servers_or_empty (JObj d)).
Proof. unfold servers_or_empty at 1. now rewrite servers_of_upserted. Qed.

Lemma upserted_members (d : dict json) (key : string) (sc : dict json) :
  upserted (JObj d) key sc
  = JObj (dict_set "mcpServers"
                   (JObj (dict_set key (JObj sc) (servers_or_empty (JObj d)))) d).
Proof. reflexivity. Qed.

(** A later upsert under the same key replaces the earlier one. *)
Lemma upserted_overwrite (d : dict json) (key : string) (sc1 sc2 : dict json) :
  upserted (upserted (JObj d) key sc1) key sc2 = upserted (JObj d) key sc2.
Proof.
  rewrite (upserted_members d key sc1), upserted_members.
  rewrite <- (upserted_members d key sc1), servers_or_empty_upserted.
  now rewrite !dict_set_twice.
Qed.

(** X8. An installation under a key that the document does not have yet
    appends the entry after the servers already there, and changes
    nothing else: every other top-level member keeps its value, and the
    top-level keys are the old ones, with [mcpServers] added last when it
    was missing. *)
Theorem install_new_key_appended (h : host) (server_name command : string)
    (args : list string) (env : option (list string)) (cwd : option string)
    (w : world) (d : dict json) :
  doc_of (cfg w) = JObj d ->
  can_upsert (cfg w) = true ->
  dict_has (normalize_server_name server_name) (servers_or_empty (JObj d)) = false ->
  exists d',
    install_to_claude_desktop h server_name command args env cwd w
    = (Return tt, written (JObj d') w)
    /\ servers_of (JObj d')
       = Some (servers_or_empty (JObj d)
               ++ [(normalize_server_name server_name,
                    JObj (server_config command args env cwd))])%list
    /\ (forall k, k <> "mcpServers" -> dict_get k d' = dict_get k d)
    /\ keys d' = (if dict_has "mcpServers" d then keys d
                  else keys d ++ ["mcpServers"])%list.
Proof.
  intros Hd Ok Hnew.
  set (key := normalize_server_name server_name) in *.
  set (sc := server_config command args env cwd).
  exists (dict_set "mcpServers"
                   (JObj (dict_set key (JObj sc) (servers_or_empty (JObj d)))) d).
  split; [|split; [|split]].
  - rewrite install_run, Ok, Hd. reflexivity.
  - rewrite <- upserted_members, servers_of_upserted.
    now rewrite (dict_set_absent key (JObj sc) _ Hnew).
  - intros k Hk. now apply dict_get_set_other.
  - destruct (dict_has "mcpServers" d) eqn:E.
    + now apply keys_set_present.
    + now apply keys_set_absent.
Qed.

Lemma install_new_key_appended_witness :
  exists d',
    install_to_claude_desktop no_tree "delta" "node" ["d.js"] None None
                              (fresh (Holds (JObj sample_doc)))
    = (Return tt, written (JObj d') (fresh (Holds (JObj sample_doc))))
    /\ servers_of (JObj d')
       = Some (servers_or_empty (JObj sample_doc)
               ++ [(normalize_server_name "delta",
                    JObj (server_config "node" ["d.js"] None None))])%list
    /\ (forall k, k <> "mcpServers" -> dict_get k d' = dict_get k sample_doc)
    /\ keys d' = (if dict_has "mcpServers" sample_doc then keys sample_doc
                  else keys sample_doc ++ ["mcpServers"])%list.
Proof.
  apply (install_new_key_appended no_tree "delta" "node" ["d.js"] None None
           (fresh (Holds (JObj sample_doc))) sample_doc); reflexivity.
Defined.

(** X9. Last install wins. Two installations whose names have the same
    sanitized key, whatever their commands, arguments, environments and
    working directories, leave the file as the second installation alone
    would leave it: nothing of the first entry is merged into the
    second. Names that differ only in characters outside the class, or
    in their scope, collide in this way. *)
Theorem install_last_wins (h : host) (name1 name2 command1 command2 : string)
    (args1 args2 : list string) (env1 env2 : option (list string))
    (cwd1 cwd2 : option string) (w : world) :
  normalize_server_name name1 = normalize_server_name name2 ->
  cfg (snd (install_to_claude_desktop h name2 command2 args2 env2 cwd2
              (snd (install_to_claude_desktop h name1 command1 args1 env1 cwd1 w))))
  = cfg (snd (install_to_claude_desktop h name2 command2 args2 env2 cwd2 w)).
Proof.
  intros Hkey.
  rewrite (install_run h name1), (install_run h name2 command2 args2 env2 cwd2 w).
  destruct (can_upsert (cfg w)) eqn:Ok.
  - destruct (can_upsert_object _ Ok) as (d & Hd & _). rewrite Hd.
    rewrite install_run. cbn [snd written cfg doc_of].
    rewrite can_upsert_upserted, Hkey, upserted_overwrite. reflexivity.
  - cbn [snd]. rewrite install_run, Ok. reflexivity.
Qed.

Lemma install_last_wins_witness :
  cfg (snd (install_to_claude_desktop no_tree "@other/my-module" "npx" ["@other/my-module"]
              None None
              (snd (install_to_claude_desktop no_tree "my.module" "python"
                      ["-m"; "my.module"] (Some ["KEY=1"]) (Some "/srv")
                      (fresh NoFile)))))
  = Holds (JObj [("mcpServers",
                  JObj [("my-module", JObj [("command", JStr "npx");
                                            ("args", JArr [JStr "@other/my-module"])])])]).
Proof.
  rewrite (install_last_wins no_tree "my.module" "@other/my-module" "python" "npx"
             ["-m"; "my.module"] ["@other/my-module"] (Some ["KEY=1"]) None
             (Some "/srv") None (fresh NoFile) eq_refl).
  reflexivity.
Defined.

(** X10. Two installations under different keys, from a state in which
    the installer completes: both complete, and afterwards each entry is
    stored under its own key. *)
Theorem install_two_servers (h : host) (name1 name2 command1 command2 : string)
    (args1 args2 : list string) (env1 env2 : option (list string))
    (cwd1 cwd2 : option string) (w : world) :
  can_upsert (cfg w) = true ->
  normalize_server_name name1 <> normalize_server_name name2 ->
  exists w1 w2,
    install_to_claude_desktop h name1 command1 args1 env1 cwd1 w = (Return tt, w1)
    /\ install_to_claude_desktop h name2 command2 args2 env2 cwd2 w1 = (Return tt, w2)
    /\ stored_entry w2 (normalize_server_name name1)
       = Some (JObj (server_config command1 args1 env1 cwd1))
    /\ stored_entry w2 (normalize_server_name name2)
       = Some (JObj (server_config command2 args2 env2 cwd2)).
Proof.
  intros Ok Hne.
  destruct (can_upsert_object _ Ok) as (d & Hd & _).
  set (k1 := normalize_server_name name1) in *.
  set (k2 := normalize_server_name name2) in *.
  set (sc1 := server_config command1 args1 env1 cwd1).
  set (sc2 := server_config command2 args2 env2 cwd2).
  exists (written (upserted (JObj d) k1 sc1) w),
         (written (upserted (upserted (JObj d) k1 sc1) k2 sc2)
                  (written (upserted (JObj d) k1 sc1) w)).
  split; [|split; [|split]].
  - rewrite install_run, Ok, Hd. reflexivity.
  - rewrite install_run. cbn [written cfg doc_of]. now rewrite can_upsert_upserted.
  - unfold stored_entry. cbn [written cfg].
    rewrite (upserted_members d k1 sc1), servers_of_upserted.
    rewrite <- (upserted_members d k1 sc1), servers_or_empty_upserted.
    rewrite dict_get_set_other by exact Hne. apply dict_get_set_same.
  - rewrite (upserted_members d k1 sc1). apply stored_entry_written.
Qed.

Lemma install_two_servers_witness :
  exists w1 w2,
    install_to_claude_desktop no_tree "one" "npx" ["one"] None None (fresh NotJson)
    = (Return tt, w1)
    /\ install_to_claude_desktop no_tree "two" "python" ["-m"; "two"] None None w1
       = (Return tt, w2)
    /\ stored_entry w2 (normalize_server_name "one")
       = Some (JObj (server_config "npx" ["one"] None None))
    /\ stored_entry w2 (normalize_server_name "two")
       = Some (JObj (server_config "python" ["-m"; "two"] None None)).
Proof.
  apply (install_two_servers no_tree "one" "two" "npx" "python" ["one"] ["-m"; "two"]
           None None None None (fresh NotJson)); [reflexivity | discriminate].
Defined.

(** X11. Once an installation has completed, every later installation
    completes: what the installer writes is an object whose [mcpServers]
    is an object, in a directory that exists. *)
Theorem install_keeps_installable (h : host) (server_name command : string)
    (args : list string) (env : option (list string)) (cwd : option string)
    (w w' : world) :
  install_to_claude_desktop h server_name command args env cwd w = (Return tt, w') ->
  can_upsert (cfg w') = true
  /\ (exists servers, servers_of (doc_of (cfg w')) = Some servers)
  /\ forall server_name' command' args' env' cwd',
       exists w'',
         install_to_claude_desktop h server_name' command' args' env' cwd' w'
         = (Return tt, w'').
Proof.
  rewrite install_run. destruct (can_upsert (cfg w)) eqn:Ok; [|discriminate].
  destruct (can_upsert_object _ Ok) as (d & Hd & _). rewrite Hd.
  intros H. injection H as Hw. subst w'. cbn [written cfg doc_of].
  split; [apply can_upsert_upserted|]. split.
  - rewrite <- upserted_members, servers_of_upserted. eauto.
  - intros. rewrite install_run. cbn [written cfg doc_of].
    rewrite <- upserted_members, can_upsert_upserted. eauto.
Qed.

Lemma install_keeps_installable_witness :
  can_upsert (cfg (written (JObj [("mcpServers",
                                   JObj [("srv", JObj (server_config "node" ["a.js"]
                                                                     None None))])])
                           (fresh NotJson))) = true
  /\ exists w'',
       install_to_claude_desktop no_tree "next" "npx" ["next"] None None
         (written (JObj [("mcpServers",
                          JObj [("srv", JObj (server_config "node" ["a.js"] None None))])])
                  (fresh NotJson))
       = (Return tt, w'').
Proof.
  destruct (install_keeps_installable no_tree "srv" "node" ["a.js"] None None
              (fresh NotJson)
              (written (JObj [("mcpServers",
                               JObj [("srv", JObj (server_config "node" ["a.js"]
                                                                 None None))])])
                       (fresh NotJson)) eq_refl) as (Hc & _ & Hnext).
  split; [exact Hc | exact (Hnext "next" "npx" ["next"] None None)].
Defined.

(** ** The sanitized name, once more *)

Lemma valid_name_not_scoped (s : string) :
  all_chars is_name_char s = true -> startswith "@" s = false.
Proof.
  destruct s as [|c t]; [reflexivity|]. simpl all_chars. intros H.
  apply andb_true_iff in H as [Hc _].
  unfold startswith. rewrite prefix_cons.
  destruct (ascii_dec "@" c) as [<-|_]; [discriminate | reflexivity].
Qed.

(** X12. The sanitized name is stable. A name made of class characters
    only is its own key, so sanitizing twice is sanitizing once. A name
    that is not of the scoped shape keeps its length, and so stays
    non-empty; but the scoped name with nothing after its separator,
    [@scope/], has the empty key. *)
Theorem sanitized_name_stable :
  (forall s, all_chars is_name_char s = true -> normalize_server_name s = s)
  /\ (forall name,
         normalize_server_name (normalize_server_name name) = normalize_server_name name)
  /\ (forall name,
         startswith "@" name && str_in "/" name = false ->
         String.length (normalize_server_name name) = String.length name)
  /\ (forall scope,
         str_in "/" scope = false -> normalize_server_name ("@" ++ scope ++ "/") = "").
Proof.
  assert (Hfix : forall s, all_chars is_name_char s = true -> normalize_server_name s = s).
  { intros s Hs. rewrite normalize_unscoped.
    - now apply re_sub_invalid_fixed.
    - now rewrite (valid_name_not_scoped s Hs). }
  split; [exact Hfix|]. split; [|split].
  - intros name. apply Hfix, normalize_valid.
  - intros name H. rewrite (normalize_unscoped name H). apply re_sub_invalid_length.
  - intros scope Hs.
    change ("@" ++ scope ++ "/") with ("@" ++ scope ++ "/" ++ "").
    now rewrite (normalize_scope_prefix scope "" Hs).
Qed.

Lemma sanitized_name_stable_witness :
  normalize_server_name "my-module_2" = "my-module_2"
  /\ String.length (normalize_server_name "my.module") = String.length "my.module"
  /\ normalize_server_name ("@" ++ "my.org" ++ "/") = "".
Proof.
  destruct sanitized_name_stable as (Hfix & _ & Hlen & Hempty).
  split; [exact (Hfix "my-module_2" eq_refl)|].
  split; [exact (Hlen "my.module" eq_refl) | exact (Hempty "my.org" eq_refl)].
Defined.

(** ** The parsed environment *)

Lemma dict_has_false_not_in {V : Type} (k : string) (d : dict V) :
  dict_has k d = false -> ~ In k (keys d).
Proof.
  unfold dict_has, keys. induction d as [|[k0 v0] rest IH]; simpl; [tauto|].
  destruct (String.eqb k0 k) eqn:E; [discriminate|].
  intros H [Heq | Hin].
  - subst. now rewrite String.eqb_refl in E.
  - now apply IH.
Qed.

(** An assignment keeps the keys of a dictionary distinct. *)
Lemma dict_set_nodup {V : Type} (k : string) (v : V) (d : dict V) :
  NoDup (keys d) -> NoDup (keys (dict_set k v d)).
Proof.
  intros Hd. destruct (dict_has k d) eqn:E.
  - now rewrite keys_set_present.
  - rewrite keys_set_absent by exact E.
    apply NoDup_app; [exact Hd | repeat constructor; simpl; tauto|].
    intros x Hx [<- | []]. now apply (dict_has_false_not_in k d E).
Qed.

Lemma parse_env_var_nodup (env_obj : dict string) (env_var : string) :
  NoDup (keys env_obj) -> NoDup (keys (parse_env_var env_obj env_var)).
Proof.
  intros H. unfold parse_env_var. destruct (str_in "=" env_var); [|exact H].
  destruct (split_once "=" env_var) as [[k v]|]; [|exact H].
  now apply dict_set_nodup.
Qed.

Lemma fold_parse_nodup (vars : list string) (env_obj : dict string) :
  NoDup (keys env_obj) -> NoDup (keys (fold_left parse_env_var vars env_obj)).
Proof.
  revert env_obj. induction vars as [|x rest IH]; intros env_obj H; [exact H|].
  simpl. now apply IH, parse_env_var_nodup.
Qed.

(** An entry with another key leaves the value of a key as it is. *)
Lemma parse_env_var_other (env_obj : dict string) (env_var key : string) :
  (forall v, env_var <> key ++ "=" ++ v) ->
  dict_get key (parse_env_var env_obj env_var) = dict_get key env_obj.
Proof.
  intros Hother. unfold parse_env_var.
  destruct (str_in "=" env_var); [|reflexivity].
  destruct (split_once "=" env_var) as [[k v]|] eqn:Hs; [|reflexivity].
  destruct (split_once_spec _ _ _ _ Hs) as [Heq _].
  apply dict_get_set_other. intros ->. now apply (Hother v).
Qed.

Lemma fold_parse_other (vars : list string) (env_obj : dict string) (key : string) :
  Forall (fun x => forall v, x <> key ++ "=" ++ v) vars ->
  dict_get key (fold_left parse_env_var vars env_obj) = dict_get key env_obj.
Proof.
  revert env_obj. induction vars as [|x rest IH]; intros env_obj H; [reflexivity|].
  inversion H as [|? ? Hx Hrest]; subst. simpl.
  rewrite (IH _ Hrest). now apply parse_env_var_other.
Qed.

(** X13. Among the entries of an environment list the last one for a key
    wins: when [KEY=VALUE] is in the list and no later entry is for
    [KEY], the parsed mapping exists, gives [VALUE] for [KEY], and has
    each key once. *)
Theorem parse_env_vars_last_wins (before after : list string) (key value : string) :
  str_in "=" key = false ->
  Forall (fun x => forall v, x <> key ++ "=" ++ v) after ->
  exists env_obj,
    parse_env_vars (Some (before ++ (key ++ "=" ++ value)%string :: after)%list) = Some env_obj
    /\ dict_get key env_obj = Some value
    /\ NoDup (keys env_obj).
Proof.
  intros Hkey Hafter.
  set (vars := (before ++ (key ++ "=" ++ value)%string :: after)%list).
  assert (Hget : dict_get key (fold_left parse_env_var vars []) = Some value).
  { unfold vars. rewrite fold_left_app. simpl.
    rewrite (fold_parse_other after _ key Hafter).
    rewrite (parse_env_var_pair _ key value Hkey). apply dict_get_set_same. }
  assert (Hnd : NoDup (keys (fold_left parse_env_var vars []))).
  { apply fold_parse_nodup. constructor. }
  exists (fold_left parse_env_var vars []).
  split; [|split; [exact Hget | exact Hnd]].
  unfold parse_env_vars. fold vars.
  destruct vars as [|x rest] eqn:Ev.
  { unfold vars in Ev. destruct before; discriminate. }
  rewrite <- Ev in *.
  destruct (fold_left parse_env_var vars []); [discriminate | reflexivity].
Qed.

Lemma parse_env_vars_last_wins_witness :
  exists env_obj,
    parse_env_vars (Some (["A=0"; "B=1"] ++ ("A" ++ "=" ++ "2=x")%string :: ["C"; "B=3"])%list)
    = Some env_obj
    /\ dict_get "A" env_obj = Some "2=x"
    /\ NoDup (keys env_obj).
Proof.
  apply (parse_env_vars_last_wins ["A=0"; "B=1"] ["C"; "B=3"] "A" "2=x" eq_refl).
  repeat constructor; intros v H; discriminate H.
Defined.

Example parse_env_vars_duplicates :
  parse_env_vars (Some ["A=0"; "B=1"; "A=2=x"; "C"; "B=3"]) = Some [("A", "2=x"); ("B", "3")].
Proof. reflexivity. Qed.

(** ** The remote resolver: the remaining branches *)

Lemma last_segment_free (sep : ascii) (s : string) :
  str_in (String sep "") (last_seg (split sep s)) = false.
Proof.
  unfold last_seg. pose proof (split_segments_free sep s) as H.
  induction H as [|seg rest Hseg Hrest IH]; [reflexivity|].
  destruct rest; [exact Hseg | exact IH].
Qed.

(** The server name of lines 238-241 is the base name of the name. *)
Lemma last_path_segment (name : string) :
  (if str_in "/" name then last_seg (split "/" name) else name) = basename name.
Proof.
  unfold basename. destruct (str_in "/" name) eqn:E; [reflexivity|].
  now rewrite (split_without "/" name E).
Qed.

Lemma normalize_basename (name : string) :
  normalize_server_name (basename name) = re_sub_invalid (basename name).
Proof.
  apply normalize_unscoped. unfold basename.
  rewrite last_segment_free. apply andb_false_r.
Qed.

(** X14. Without a complete [npm]/[npx] pair and with [pip] and [python],
    every name, dotted or not, is installed as [python -m name args...]
    under the sanitized name, and the message names the whole name: the
    last-dot-segment rule of line 252 never applies, because a dotted
    name has been taken by the branch before it. *)
Theorem remote_python_without_npx (h : host) (name : string)
    (args env : option (list string)) (w : world) :
  which h "npm" && which h "npx" = false ->
  which h "pip" = true -> which h "python" = true ->
  can_upsert (cfg w) = true ->
  let sc := server_config "python" ("-m" :: name :: args_or_empty args) env None in
  let w' := written (upserted (doc_of (cfg w)) (normalize_server_name name) sc) w in
  install_repo_mcp_server h name args env w = (Return (installed_via name "Python"), w')
  /\ stored_entry w' (normalize_server_name name) = Some (JObj sc).
Proof.
  intros Hnpx Hpip Hpy Ok. cbv zeta. split.
  - unfold install_repo_mcp_server, check_command_exists.
    rewrite Hnpx, Hpip, Hpy, andb_false_r. cbn [andb].
    destruct (str_in "." name); rewrite install_then_say, Ok; reflexivity.
  - destruct (can_upsert_object _ Ok) as (d & -> & _). apply stored_entry_written.
Qed.

Lemma remote_python_without_npx_witness :
  install_repo_mcp_server python_only "weather" (Some ["--port"; "80"]) None (fresh NoFile)
  = (Return (installed_via "weather" "Python"),
     written (JObj [("mcpServers",
                     JObj [("weather",
                            JObj [("command", JStr "python");
                                  ("args", JArr [JStr "-m"; JStr "weather";
                                                 JStr "--port"; JStr "80"])])])])
             (fresh NoFile)).
Proof.
  exact (proj1 (remote_python_without_npx python_only "weather" (Some ["--port"; "80"])
                  None (fresh NoFile) eq_refl eq_refl eq_refl eq_refl)).
Defined.

(** X15. The npx fallback of lines 236-250. With a runtime, [npm] and
    [npx] present, a dotted name that does not start with [@], and [pip]
    or [python] missing, the name is installed as [npx name args...];
    the key is the base name of the name (what follows its last [/])
    with the substitution applied, and the message names that base
    name. *)
Theorem remote_npx_fallback (h : host) (name : string) (args env : option (list string))
    (w : world) :
  which h "node" || which h "python" = true ->
  which h "npm" = true -> which h "npx" = true ->
  startswith "@" name = false -> str_in "." name = true ->
  which h "pip" && which h "python" = false ->
  can_upsert (cfg w) = true ->
  let sc := server_config "npx" (name :: args_or_empty args) env None in
  let w' := written (upserted (doc_of (cfg w)) (re_sub_invalid (basename name)) sc) w in
  install_repo_mcp_server h name args env w
  = (Return (installed_via (basename name) "npx"), w')
  /\ stored_entry w' (re_sub_invalid (basename name)) = Some (JObj sc).
Proof.
  intros Hrun Hnpm Hnpx Hat Hdot Hpy Ok. cbv zeta. split.
  - unfold install_repo_mcp_server, check_command_exists.
    assert (Hn : negb (which h "node") && negb (which h "python") = false).
    { destruct (which h "node"), (which h "python"); simpl in *; congruence. }
    rewrite Hn, Hnpm, Hnpx, Hat, Hdot, Hpy. cbn [andb orb negb].
    rewrite last_path_segment, install_then_say, Ok, normalize_basename. reflexivity.
  - destruct (can_upsert_object _ Ok) as (d & -> & _). apply stored_entry_written.
Qed.

Lemma remote_npx_fallback_witness :
  install_repo_mcp_server node_only "github.com/acme/tool.js" None None (fresh NoFile)
  = (Return (installed_via "tool.js" "npx"),
     written (JObj [("mcpServers",
                     JObj [("tool-js",
                            JObj [("command", JStr "npx");
                                  ("args", JArr [JStr "github.com/acme/tool.js"])])])])
             (fresh NoFile)).
Proof.
  exact (proj1 (remote_npx_fallback node_only "github.com/acme/tool.js" None None
                  (fresh NoFile) eq_refl eq_refl eq_refl eq_refl eq_refl eq_refl eq_refl)).
Defined.

(** ** The local resolver: effects and the remaining branches *)

Lemma install_then_say_local (h : host) (path kind command : string)
    (argv : list string) (env : option (list string)) (cwd : option string)
    (w : world) :
  match (install_to_claude_desktop h (basename path) command argv env cwd ;;;
         ret (Say (installed_local kind (basename path)))) w with
  | (Return (Say msg), w') =>
      if is_success msg
      then exists command' argv' cwd' doc,
             install_to_claude_desktop h (basename path) command' argv' env cwd' w
             = (Return tt, w')
             /\ cfg w' = Holds doc /\ dumped w' = (dumped w ++ [doc])%list
      else (msg = path_missing path \/ msg = cannot_install_local path) /\ w' = w
  | (Return (NodeError _), w') => w' = w
  | (Raise _, w') => w' = w
  end.
Proof.
  rewrite install_then_say. destruct (can_upsert (cfg w)) eqn:Ok; [|reflexivity].
  rewrite is_success_installed_local.
  exists command, argv, cwd. eexists.
  rewrite install_run, Ok. split; [reflexivity|]. split; reflexivity.
Qed.

(** X16. The effects of the local resolver. A run that answers with a
    success message made exactly one installation, under the base name
    of the path: one document was dumped and it is the one on disk. A
    run that answers anything else, the two failure messages or the
    error of the Node.js branch, and a run that raises, leave the world
    as it was. *)
Theorem local_install_effects (h : host) (path : string) (args env : option (list string))
    (w : world) :
  match install_local_mcp_server h path args env w with
  | (Return (Say msg), w') =>
      if is_success msg
      then exists command argv cwd doc,
             install_to_claude_desktop h (basename path) command argv env cwd w
             = (Return tt, w')
             /\ cfg w' = Holds doc /\ dumped w' = (dumped w ++ [doc])%list
      else (msg = path_missing path \/ msg = cannot_install_local path) /\ w' = w
  | (Return (NodeError _), w') => w' = w
  | (Raise _, w') => w' = w
  end.
Proof.
  unfold install_local_mcp_server, check_command_exists.
  destruct (negb (path_exists h path)).
  { unfold ret. rewrite is_success_path_missing. split; [now left | reflexivity]. }
  destruct (path_exists h (path_join path "package.json") && which h "node" && which h "npm").
  { rewrite try_except_run, bind_lift_run.
    destruct (node_main_file _) as [main_file|e]; [|reflexivity].
    rewrite bind_lift_run.
    destruct (join_entry path main_file) as [entry|e]; [|reflexivity].
    pose proof (install_then_say_local h path "Node.js" "node"
                  (entry :: args_or_empty args) env None w) as H.
    destruct ((install_to_claude_desktop h (basename path) "node"
                 (entry :: args_or_empty args) env None ;;;
               ret (Say (installed_local "Node.js" (basename path)))) w)
      as [[r|e] w'] eqn:E; [exact H|].
    unfold ret. exact H. }
  destruct ((path_exists h (path_join path "pyproject.toml")
             || path_exists h (path_join path "setup.py")) && which h "python").
  2:{ unfold ret. rewrite is_success_cannot_install_local.
      split; [now right | reflexivity]. }
  destruct (path_isdir h _); [apply install_then_say_local|].
  destruct (filter is_py_source (listdir h path)) as [|first rest].
  { unfold ret. rewrite is_success_cannot_install_local.
    split; [now right | reflexivity]. }
  apply install_then_say_local.
Qed.

(** X17. The Node.js branch of the local resolver. For an existing path
    with a [package.json] that reads as an object, [node] and [npm]
    present, and a state in which the installer completes, the entry is
    [node join(path, main) args...], where [main] is the string under
    ["main"] or [index.js] when the manifest has no such member; it is
    stored under the sanitized base name of the path. *)
Theorem local_node_branch_installs (h : host) (path : string)
    (args env : option (list string)) (w : world) (manifest : dict json) (main : string) :
  path_exists h path = true ->
  path_exists h (path_join path "package.json") && which h "node" && which h "npm" = true ->
  load_json h (path_join path "package.json") = Some (JObj manifest) ->
  dict_get "main" manifest = Some (JStr main)
  \/ (dict_get "main" manifest = None /\ main = "index.js") ->
  can_upsert (cfg w) = true ->
  let sc := server_config "node" (path_join path main :: args_or_empty args) env None in
  let w' := written (upserted (doc_of (cfg w))
                              (normalize_server_name (basename path)) sc) w in
  install_local_mcp_server h path args env w
  = (Return (Say (installed_local "Node.js" (basename path))), w')
  /\ stored_entry w' (normalize_server_name (basename path)) = Some (JObj sc).
Proof.
  intros Hex Hnode Hload Hmain Ok. cbv zeta. split.
  - unfold install_local_mcp_server, check_command_exists.
    rewrite Hex, Hnode, Hload. cbn [negb].
    rewrite try_except_run, bind_lift_run. unfold node_main_file.
    destruct Hmain as [Hm | [Hm ->]]; rewrite Hm, bind_lift_run;
      cbn [join_entry]; rewrite install_then_say, Ok; reflexivity.
  - destruct (can_upsert_object _ Ok) as (d & -> & _). apply stored_entry_written.
Qed.

Lemma local_node_branch_installs_witness :
  install_local_mcp_server (node_project (Some (JObj [("name", JStr "app")])))
                           "/srv/app" (Some ["--stdio"]) None (fresh NoFile)
  = (Return (Say (installed_local "Node.js" "app")),
     written (JObj [("mcpServers",
                     JObj [("app", JObj [("command", JStr "node");
                                         ("args", JArr [JStr "/srv/app/index.js";
                                                        JStr "--stdio"])])])])
             (fresh NoFile)).
Proof.
  exact (proj1 (local_node_branch_installs
                  (node_project (Some (JObj [("name", JStr "app")]))) "/srv/app"
                  (Some ["--stdio"]) None (fresh NoFile) [("name", JStr "app")] "index.js"
                  eq_refl eq_refl eq_refl (or_intror (conj eq_refl eq_refl)) eq_refl)).
Defined.

(** X18. In the Node.js branch nothing is raised and nothing is tried
    after a failure. Whenever the branch applies the resolver returns a
    reply, even when Python markers are present beside the manifest. A
    manifest that cannot be read or parsed, one that is not an object,
    an entry point that is not a string, and a configuration file that
    cannot be upserted or written are each answered with the error
    reply, and the world is left as it was. *)
Theorem local_node_errors_reported (h : host) (path : string)
    (args env : option (list string)) (w : world) :
  path_exists h path = true ->
  path_exists h (path_join path "package.json") && which h "node" && which h "npm" = true ->
  (exists reply w', install_local_mcp_server h path args env w = (Return reply, w'))
  /\ (load_json h (path_join path "package.json") = None ->
      install_local_mcp_server h path args env w = (Return (NodeError LoadFailure), w))
  /\ (forall v,
         load_json h (path_join path "package.json") = Some v ->
         (forall d, v <> JObj d) ->
         install_local_mcp_server h path args env w = (Return (NodeError AttributeError), w))
  /\ (forall d v,
         load_json h (path_join path "package.json") = Some (JObj d) ->
         dict_get "main" d = Some v -> (forall m, v <> JStr m) ->
         install_local_mcp_server h path args env w = (Return (NodeError TypeError), w))
  /\ (forall d,
         load_json h (path_join path "package.json") = Some (JObj d) ->
         dict_get "main" d = None \/ (exists m, dict_get "main" d = Some (JStr m)) ->
         can_upsert (cfg w) = false ->
         install_local_mcp_server h path args env w
         = (Return (NodeError (install_failure (cfg w))), w)).
Proof.
  intros Hex Hnode.
  unfold install_local_mcp_server, check_command_exists.
  rewrite Hex, Hnode. cbn [negb].
  rewrite try_except_run, bind_lift_run.
  split; [|split; [|split; [|split]]].
  - destruct (node_main_file _) as [main_file|e]; [|unfold ret; eauto].
    rewrite bind_lift_run.
    destruct (join_entry path main_file) as [entry|e]; [|unfold ret; eauto].
    rewrite install_then_say. destruct (can_upsert (cfg w)); unfold ret; eauto.
  - intros ->. reflexivity.
  - intros v -> Hv. destruct v; try reflexivity. now contradiction (Hv members).
  - intros d v -> Hm Hv. unfold node_main_file. rewrite Hm, bind_lift_run.
    destruct v; try reflexivity. now contradiction (Hv s).
  - intros d -> Hm Bad. unfold node_main_file.
    destruct Hm as [Hm | [m Hm]]; rewrite Hm, bind_lift_run; cbn [join_entry];
      rewrite install_then_say, Bad; reflexivity.
Qed.

Lemma local_node_errors_reported_witness :
  install_local_mcp_server (node_project None) "/srv/app" None None (fresh NoFile)
  = (Return (NodeError LoadFailure), fresh NoFile)
  /\ install_local_mcp_server (node_project (Some (JArr []))) "/srv/app" None None
                              (fresh NoFile)
     = (Return (NodeError AttributeError), fresh NoFile)
  /\ install_local_mcp_server (node_project (Some (JObj [("main", JInt 3)]))) "/srv/app"
                              None None (fresh NoFile)
     = (Return (NodeError TypeError), fresh NoFile)
  /\ install_local_mcp_server (node_project (Some (JObj [("main", JStr "srv.js")])))
                              "/srv/app" None None (fresh NoDirectory)
     = (Return (NodeError (install_failure (cfg (fresh NoDirectory)))), fresh NoDirectory).
Proof.
  split; [|split; [|split]].
  - destruct (local_node_errors_reported (node_project None) "/srv/app" None None
                (fresh NoFile) eq_refl eq_refl) as (_ & H & _).
    exact (H eq_refl).
  - destruct (local_node_errors_reported (node_project (Some (JArr []))) "/srv/app"
                None None (fresh NoFile) eq_refl eq_refl) as (_ & _ & H & _).
    apply (H (JArr []) eq_refl). discriminate.
  - destruct (local_node_errors_reported (node_project (Some (JObj [("main", JInt 3)])))
                "/srv/app" None None (fresh NoFile) eq_refl eq_refl) as (_ & _ & _ & H & _).
    apply (H [("main", JInt 3)] (JInt 3) eq_refl eq_refl). discriminate.
  - destruct (local_node_errors_reported
                (node_project (Some (JObj [("main", JStr "srv.js")]))) "/srv/app"
                None None (fresh NoDirectory) eq_refl eq_refl) as (_ & _ & _ & _ & H).
    apply (H [("main", JStr "srv.js")] eq_refl); [right; now exists "srv.js" | reflexivity].
Defined.

Lemma server_config_cwd (command : string) (args : list string)
    (env : option (list string)) (cwd : string) :
  cwd <> "" ->
  dict_get "cwd" (server_config command args env (Some cwd)) = Some (JStr cwd).
Proof.
  intros Hc. unfold server_config. apply String.eqb_neq in Hc. rewrite Hc.
  apply dict_get_set_same.
Qed.

(** X19. The package-directory branch of lines 326-339. For a Python
    project whose directory holds a subdirectory named as its base name
    with every [-] turned into [_], the entry is
    [python -m that_name args...] with the project path as working
    directory, stored under the sanitized base name. *)
Theorem local_module_directory_branch (h : host) (path : string)
    (args env : option (list string)) (w : world) :
  path <> "" ->
  path_exists h path = true ->
  path_exists h (path_join path "package.json") && which h "node" && which h "npm" = false ->
  (path_exists h (path_join path "pyproject.toml")
   || path_exists h (path_join path "setup.py")) && which h "python" = true ->
  path_isdir h (path_join path (replace "-" "_" (basename path))) = true ->
  can_upsert (cfg w) = true ->
  let module_name := replace "-" "_" (basename path) in
  let sc := server_config "python" ("-m" :: module_name :: args_or_empty args) env
                          (Some path) in
  let w' := written (upserted (doc_of (cfg w))
                              (normalize_server_name (basename path)) sc) w in
  install_local_mcp_server h path args env w
  = (Return (Say (installed_local "Python" (basename path))), w')
  /\ stored_entry w' (normalize_server_name (basename path)) = Some (JObj sc)
  /\ dict_get "cwd" sc = Some (JStr path).
Proof.
  intros Hp Hex Hnode Hpy Hdir Ok. cbv zeta. split; [|split].
  - unfold install_local_mcp_server, check_command_exists.
    rewrite Hex, Hnode, Hpy, Hdir. cbn [negb].
    rewrite install_then_say, Ok. reflexivity.
  - destruct (can_upsert_object _ Ok) as (d & -> & _). apply stored_entry_written.
  - now apply server_config_cwd.
Qed.

Lemma local_module_directory_branch_witness :
  install_local_mcp_server module_project "/srv/my-proj" None None (fresh NoFile)
  = (Return (Say (installed_local "Python" "my-proj")),
     written (JObj [("mcpServers",
                     JObj [("my-proj", JObj [("command", JStr "python");
                                             ("args", JArr [JStr "-m"; JStr "my_proj"]);
                                             ("cwd", JStr "/srv/my-proj")])])])
             (fresh NoFile)).
Proof.
  refine (proj1 (local_module_directory_branch module_project "/srv/my-proj" None None
                   (fresh NoFile) _ eq_refl eq_refl eq_refl eq_refl eq_refl)).
  discriminate.
Defined.

(** X20. [pip] matters to the remote resolver only. The local resolver
    never consults it: whether [pip] is on the path or not, its reply
    and the world are the same. The remote resolver, on a host with
    [python] but neither [pip] nor a complete [npm]/[npx] pair, installs
    nothing and answers that it could not determine how to install. *)
Theorem pip_needed_only_remotely (h : host) (name : string)
    (args env : option (list string)) (w : world) :
  (forall present path,
      install_local_mcp_server (set_tool "pip" present h) path args env w
      = install_local_mcp_server h path args env w)
  /\ (which h "python" = true -> which h "pip" = false ->
      which h "npm" && which h "npx" = false ->
      install_repo_mcp_server h name args env w = (Return (cannot_install name), w)).
Proof.
  split; [reflexivity|].
  intros Hpy Hpip Hnpx. unfold install_repo_mcp_server, check_command_exists.
  rewrite Hpy, Hpip, Hnpx, andb_false_r. reflexivity.
Qed.

Lemma pip_needed_only_remotely_witness :
  install_local_mcp_server (set_tool "pip" true module_project) "/srv/my-proj" None None
                           (fresh NoFile)
  = install_local_mcp_server module_project "/srv/my-proj" None None (fresh NoFile)
  /\ install_repo_mcp_server module_project "weather" None None (fresh NoFile)
     = (Return (cannot_install "weather"), fresh NoFile).
Proof.
  destruct (pip_needed_only_remotely module_project "weather" None None (fresh NoFile))
    as [Hlocal Hremote].
  split; [exact (Hlocal true "/srv/my-proj") | exact (Hremote eq_refl eq_refl eq_refl)].
Defined.

(** ** The configuration path and the configuration store *)

Lemma endswith_char_app (c : ascii) (a b : string) :
  b <> "" -> endswith (String c "") (a ++ b) = endswith (String c "") b.
Proof.
  intros Hb. induction a as [|x t IH]; [reflexivity|].
  change (String x t ++ b) with (String x (t ++ b)).
  rewrite endswith_char_cons, IH.
  assert (Hne : String.eqb "" (t ++ b) = false).
  { apply String.eqb_neq. intros Heq. symmetry in Heq.
    now apply (append_nonempty_r t b Hb). }
  now rewrite Hne, andb_false_r.
Qed.

(** Joining onto a directory written without a trailing separator. *)
Lemma path_join_plain (a b : string) :
  a <> "" -> endswith "/" a = false -> startswith "/" b = false ->
  path_join a b = a ++ "/" ++ b.
Proof.
  intros Ha Hsep Hb. unfold path_join. rewrite Hb, Hsep.
  apply String.eqb_neq in Ha. now rewrite Ha.
Qed.

Lemma path_join_step (a b : string) :
  a <> "" -> endswith "/" a = false ->
  b <> "" -> startswith "/" b = false -> endswith "/" b = false ->
  path_join a b = a ++ "/" ++ b
  /\ a ++ "/" ++ b <> ""
  /\ endswith "/" (a ++ "/" ++ b) = false.
Proof.
  intros Ha Hsa Hb Hsb Heb. split; [now apply path_join_plain|]. split.
  - apply append_nonempty_r. discriminate.
  - rewrite endswith_char_app by discriminate.
    change ("/" ++ b) with (String "/" b).
    rewrite endswith_char_cons, Heb.
    apply String.eqb_neq in Hb. rewrite String.eqb_sym, Hb.
    now rewrite andb_false_r.
Qed.

(** X21. The configuration path on macOS and on Linux. For a home
    directory written without a trailing separator the path is the home
    directory followed by [/Library/Application Support/Claude/] on
    macOS, and by [/.config/Claude/] on any other system that is not
    Windows, and then the file name; [APPDATA] plays no part. *)
Theorem config_path_posix (h : host) :
  home h <> "" -> endswith "/" (home h) = false ->
  (platform_system h = Darwin ->
   get_claude_desktop_config_path h
   = Some (home h ++ "/Library/Application Support/Claude/claude_desktop_config.json"))
  /\ (platform_system h = OtherSystem ->
      get_claude_desktop_config_path h
      = Some (home h ++ "/.config/Claude/claude_desktop_config.json")).
Proof.
  intros Hhome Hsep.
  unfold get_claude_desktop_config_path, config_file_name. split; intros ->.
  - destruct (path_join_step (home h) "Library" Hhome Hsep) as (-> & H1 & H1');
      [discriminate | reflexivity | reflexivity |].
    destruct (path_join_step _ "Application Support" H1 H1') as (-> & H2 & H2');
      [discriminate | reflexivity | reflexivity |].
    destruct (path_join_step _ "Claude" H2 H2') as (-> & H3 & H3');
      [discriminate | reflexivity | reflexivity |].
    rewrite (path_join_plain _ "claude_desktop_config.json" H3 H3' eq_refl).
    now rewrite !append_assoc.
  - destruct (path_join_step (home h) ".config" Hhome Hsep) as (-> & H1 & H1');
      [discriminate | reflexivity | reflexivity |].
    destruct (path_join_step _ "Claude" H1 H1') as (-> & H2 & H2');
      [discriminate | reflexivity | reflexivity |].
    rewrite (path_join_plain _ "claude_desktop_config.json" H2 H2' eq_refl).
    now rewrite !append_assoc.
Qed.

Lemma config_path_posix_witness :
  get_claude_desktop_config_path no_tree
  = Some (home no_tree ++ "/.config/Claude/claude_desktop_config.json").
Proof.
  refine (proj2 (config_path_posix no_tree _ eq_refl) eq_refl). discriminate.
Defined.


Lemma nt_join_plain (a b : string) :
  a <> "" -> ends_with_nt_sep a = false -> nt_join a b = a ++ "\" ++ b.
Proof.
  intros Ha Hsep. unfold nt_join. rewrite Hsep.
  apply String.eqb_neq in Ha. now rewrite Ha.
Qed.

(** X22. The configuration path on Windows. With [APPDATA] unset or
    empty the path is the relative path [Claude\claude_desktop_config.json];
    with [APPDATA] set to a directory written without a trailing
    separator or colon it is that directory followed by
    [\Claude\claude_desktop_config.json]. The home directory plays no
    part. *)
Theorem config_path_windows (h : host) :
  platform_system h = Windows ->
  (appdata h = None \/ appdata h = Some "" ->
   get_claude_desktop_config_path h = Some "Claude\claude_desktop_config.json")
  /\ (forall a,
         appdata h = Some a -> a <> "" -> ends_with_nt_sep a = false ->
         get_claude_desktop_config_path h
         = Some (a ++ "\Claude\claude_desktop_config.json")).
Proof.
  intros Hw. unfold get_claude_desktop_config_path, config_file_name. rewrite Hw. split.
  - intros [-> | ->]; reflexivity.
  - intros a -> Ha Hsep. rewrite (nt_join_plain a "Claude" Ha Hsep).
    rewrite nt_join_plain.
    + now rewrite !append_assoc.
    + apply append_nonempty_r. discriminate.
    + unfold ends_with_nt_sep. now rewrite !endswith_char_app by discriminate.
Qed.

Lemma config_path_windows_witness :
  get_claude_desktop_config_path windows_host
  = Some ("C:\Users\u\AppData\Roaming" ++ "\Claude\claude_desktop_config.json").
Proof.
  refine (proj2 (config_path_windows windows_host eq_refl) "C:\Users\u\AppData\Roaming"
                eq_refl _ eq_refl).
  discriminate.
Defined.

(** X24. A configuration file that cannot be upserted or written makes
    the resolvers raise. Whenever the remote resolver reaches an
    installation, and whenever the local resolver reaches one in its
    Python branch, from a state in which the installer does not
    complete, the installer's exception escapes the tool
    ([FileNotFoundError] without the directory, [TypeError] for a
    document or an [mcpServers] that is not an object) and the world is
    left as it was. *)
Theorem config_failure_escapes (h : host) (name : string)
    (args env : option (list string)) (w : world) :
  can_upsert (cfg w) = false ->
  (which h "node" || which h "python" = true ->
   (which h "npm" && which h "npx") || (which h "pip" && which h "python") = true ->
   install_repo_mcp_server h name args env w = (Raise (install_failure (cfg w)), w))
  /\ (path_exists h name = true ->
      path_exists h (path_join name "package.json") && which h "node" && which h "npm"
      = false ->
      (path_exists h (path_join name "pyproject.toml")
       || path_exists h (path_join name "setup.py")) && which h "python" = true ->
      path_isdir h (path_join name (replace "-" "_" (basename name))) = true
      \/ filter is_py_source (listdir h name) <> [] ->
      install_local_mcp_server h name args env w = (Raise (install_failure (cfg w)), w)).
Proof.
  intros Bad. split.
  - intros Hrun Htools. unfold install_repo_mcp_server, check_command_exists.
    assert (Hn : negb (which h "node") && negb (which h "python") = false).
    { destruct (which h "node"), (which h "python"); simpl in *; congruence. }
    rewrite Hn.
    destruct (which h "npm" && which h "npx"
              && (startswith "@" name || negb (str_in "." name)));
      [now rewrite install_then_say, Bad|].
    destruct (which h "pip" && which h "python" && str_in "." name);
      [now rewrite install_then_say, Bad|].
    destruct (which h "npm" && which h "npx"); [now rewrite install_then_say, Bad|].
    destruct (which h "pip" && which h "python"); [now rewrite install_then_say, Bad|].
    discriminate.
  - intros Hex Hnode Hpy Hfound. unfold install_local_mcp_server, check_command_exists.
    rewrite Hex, Hnode, Hpy. cbn [negb].
    destruct (path_isdir h _); [now rewrite install_then_say, Bad|].
    destruct Hfound as [Hdir | Hfiles]; [discriminate|].
    destruct (filter is_py_source (listdir h name)) as [|first rest]; [contradiction|].
    now rewrite install_then_say, Bad.
Qed.

Lemma config_failure_escapes_witness :
  install_repo_mcp_server node_only "some-server" None None (fresh NoDirectory)
  = (Raise (install_failure (cfg (fresh NoDirectory))), fresh NoDirectory)
  /\ install_local_mcp_server module_project "/srv/my-proj" None None
                              (fresh (Holds (JArr [])))
     = (Raise (install_failure (cfg (fresh (Holds (JArr []))))), fresh (Holds (JArr []))).
Proof.
  split.
  - exact (proj1 (config_failure_escapes node_only "some-server" None None
                    (fresh NoDirectory) eq_refl) eq_refl eq_refl).
  - exact (proj2 (config_failure_escapes module_project "/srv/my-proj" None None
                    (fresh (Holds (JArr []))) eq_refl)
                 eq_refl eq_refl eq_refl (or_introl eq_refl)).
Defined.

(** ** Running a command *)

Lemma dict_get_absent_key {V : Type} (k : string) (d : dict V) :
  ~ In k (keys d) -> dict_get k d = None.
Proof.
  unfold keys. induction d as [|[k0 v0] rest IH]; simpl; [reflexivity|].
  intros Hin. destruct (String.eqb k0 k) eqn:E.
  - apply String.eqb_eq in E. subst. exfalso. apply Hin. now left.
  - apply IH. intros H. apply Hin. now right.
Qed.

(** After an update the members of the update win, and every other key
    has the value it had. *)
Lemma dict_update_get {V : Type} (k : string) (e d : dict V) :
  NoDup (keys e) ->
  dict_get k (dict_update d e)
  = match dict_get k e with
    | Some v => Some v
    | None => dict_get k d
    end.
Proof.
  unfold dict_update. revert d.
  induction e as [|[k0 v0] rest IH]; intros d Hnd; [reflexivity|].
  inversion Hnd as [|? ? Hnotin Hrest]; subst.
  simpl fold_left. rewrite (IH _ Hrest). simpl dict_get.
  destruct (String.eqb k0 k) eqn:E.
  - apply String.eqb_eq in E. subst k0.
    rewrite (dict_get_absent_key k rest Hnotin). apply dict_get_set_same.
  - destruct (dict_get k rest); [reflexivity|].
    apply dict_get_set_other. intros ->. now rewrite String.eqb_refl in E.
Qed.

(** X25. The environment of a command. [run_command] runs the command
    once, in the given working directory, in an environment in which
    each variable of [env] has the value [env] gives it and every other
    variable has the value of the server's own environment; with [env]
    absent or empty, it is the server's environment. The reply is that
    of this run: success exactly on exit status 0, with the standard
    output followed by the standard error; failure with the text of the
    exception when the command could not be run. *)
Theorem run_command_environment (ph : process_host) (command : list string)
    (cwd : option string) (env : option (dict string)) :
  (forall e, env = Some e -> NoDup (keys e)) ->
  exists env_dict,
    (forall k,
        dict_get k env_dict
        = match env with
          | Some e => match dict_get k e with
                      | Some v => Some v
                      | None => dict_get k (environ ph)
                      end
          | None => dict_get k (environ ph)
          end)
    /\ (env = None \/ env = Some [] -> env_dict = environ ph)
    /\ run_command ph command cwd env
       = match subprocess_run ph command cwd env_dict with
         | Exited returncode stdout stderr => (Z.eqb returncode 0, stdout ++ stderr)
         | SpawnFailed text => (false, text)
         end.
Proof.
  intros Hwf. unfold run_command.
  destruct env as [[|kv rest]|].
  - exists (environ ph). split; [reflexivity|]. split; reflexivity.
  - exists (dict_update (environ ph) (kv :: rest)). split; [|split].
    + intros k. apply dict_update_get. now apply Hwf.
    + intros [H | H]; discriminate H.
    + reflexivity.
  - exists (environ ph). split; [reflexivity|]. split; reflexivity.
Qed.

Lemma run_command_environment_witness :
  run_command sample_processes ["printenv"; "TOKEN"] (Some "/srv")
              (Some [("TOKEN", "child"); ("EXTRA", "1")])
  = (true, "child")
  /\ run_command sample_processes ["printenv"; "TOKEN"] None (Some []) = (true, "parent").
Proof.
  split.
  - destruct (run_command_environment sample_processes ["printenv"; "TOKEN"] (Some "/srv")
                (Some [("TOKEN", "child"); ("EXTRA", "1")])) as (env_dict & Hget & _ & Hrun).
    + intros e He. injection He as <-.
      repeat constructor; simpl; intuition discriminate.
    + rewrite Hrun. cbn [sample_processes subprocess_run].
      rewrite (Hget "TOKEN"). reflexivity.
  - destruct (run_command_environment sample_processes ["printenv"; "TOKEN"] None
                (Some [])) as (env_dict & _ & Hsame & Hrun).
    + intros e He. injection He as <-. constructor.
    + rewrite Hrun, (Hsame (or_intror eq_refl)). reflexivity.
Defined.

(** X26. The two registry probes. [is_npm_package] answers [True]
    exactly when [npm view name], run without a working directory in the
    server's own environment, exits with status 0, and [is_pypi_package]
    likewise for [pip search name]; a command that cannot be started, or
    that exits with another status, gives [False] and nothing is raised. *)
Theorem package_probes (ph : process_host) (package_name : string) :
  (is_npm_package ph package_name = true <->
   exists stdout stderr,
     subprocess_run ph ["npm"; "view"; package_name] None (environ ph)
     = Exited 0 stdout stderr)
  /\ (is_pypi_package ph package_name = true <->
      exists stdout stderr,
        subprocess_run ph ["pip"; "search"; package_name] None (environ ph)
        = Exited 0 stdout stderr).
Proof.
  unfold is_npm_package, is_pypi_package, run_command. split.
  - destruct (subprocess_run ph ["npm"; "view"; package_name] None (environ ph))
      as [rc out err|text]; cbn [fst]; split.
    + intros H. apply Z.eqb_eq in H. subst. eauto.
    + intros (o & e & H). now inversion H.
    + discriminate.
    + intros (o & e & H). discriminate H.
  - destruct (subprocess_run ph ["pip"; "search"; package_name] None (environ ph))
      as [rc out err|text]; cbn [fst]; split.
    + intros H. apply Z.eqb_eq in H. subst. eauto.
    + intros (o & e & H). now inversion H.
    + discriminate.
    + intros (o & e & H). discriminate H.
Qed.

Lemma package_probes_witness :
  is_npm_package sample_processes "left-pad" = true
  /\ is_npm_package sample_processes "no-such-package" = false
  /\ is_pypi_package sample_processes "requests" = false.
Proof.
  split; [|split; reflexivity].
  apply (proj1 (package_probes sample_processes "left-pad")).
  exists "left-pad@1.3.0", "". reflexivity.
Defined.
